(** * server.py: static files, runtime configuration and the Databricks proxy

    A shallow embedding of [server.py].  The handler class [CustomHandler]
    mutates the response it is building ([send_response], [send_header],
    [end_headers], [wfile.write]) and may raise; its methods are therefore
    embedded in a small state-and-exception monad over the handler state.
    The module global [databricks_config] lives in that state as well, so that
    "the handlers only read it" is a theorem and not a choice of types.

    What the program obtains from outside is a parameter of the model:
    the environment ([os.getenv]), the answer of the backend ([urlopen]),
    the file system behind the inherited static file handler, the clock, and a
    few functions of the Python library ([int], [repr], the HTML error page).
    Strings are byte strings: header text is Latin-1, one character a byte,
    and the script and the environment values are UTF-8.  [print] calls are
    logging and are left out.  Requests are HTTP/1.x requests as the base
    class parsed them: a command, the request target [path] (query string
    included), the headers and the unread body. *)

From Stdlib Require Import ZArith Ascii String.
From stdpp Require Import base option list strings pretty gmap.

Local Open Scope Z_scope.

(** ** Python string operations used by the program *)

Module Py.

(** [s.startswith(p)] *)
Definition startswith (p s : string) : bool := String.prefix p s.

(** [s.endswith(suf)]: [suf] is [s] or a suffix of its tail. *)
Fixpoint endswith (suf s : string) : bool :=
  String.eqb s suf ||
  match s with
  | EmptyString => false
  | String _ s' => endswith suf s'
  end.

(** [p in s] on strings: [p] is a prefix of some suffix of [s]. *)
Fixpoint contains (p s : string) : bool :=
  String.prefix p s ||
  match s with
  | EmptyString => false
  | String _ s' => contains p s'
  end.

(** [c.lower()] for a character of a Latin-1 decoded header: [A-Z] and the
    accented capitals [0xC0-0xDE] other than the multiplication sign. *)
Definition lower_char (c : ascii) : ascii :=
  let n := nat_of_ascii c in
  if ((65 <=? n) && (n <=? 90))%nat then ascii_of_nat (n + 32)
  else if ((192 <=? n) && (n <=? 222) && negb (n =? 215))%nat
       then ascii_of_nat (n + 32)
  else c.

(** [s.lower()] *)
Fixpoint lower (s : string) : string :=
  match s with
  | EmptyString => EmptyString
  | String c s' => String (lower_char c) (lower s')
  end.

(** [s[:n]] and [s[n:]] *)
Fixpoint take (n : nat) (s : string) : string :=
  match n, s with
  | S n', String c s' => String c (take n' s')
  | _, _ => EmptyString
  end.

Fixpoint drop (n : nat) (s : string) : string :=
  match n, s with
  | S n', String _ s' => drop n' s'
  | _, _ => s
  end.

(** [s in l] for a list of strings. *)
Definition in_list (s : string) (l : list string) : bool :=
  existsb (String.eqb s) l.

(** Truth value of a string: non-empty. *)
Definition truthy (s : string) : bool :=
  match s with
  | EmptyString => false
  | String _ _ => true
  end.

(** Truth value of an optional string: neither [None] nor empty. *)
Definition truthy_opt (o : option string) : bool :=
  match o with
  | Some s => truthy s
  | None => false
  end.

(** [f'{o}'] for an optional string. *)
Definition fstr (o : option string) : string :=
  match o with
  | Some s => s
  | None => "None"
  end.

(** [a or b] on optional strings, as in [cfg.host or os.getenv(...)]. *)
Definition or_else (a : option string) (b : string) : string :=
  match a with
  | Some s => if truthy s then s else b
  | None => b
  end.

(** [str(b).lower()] for a boolean. *)
Definition bool_lower (b : bool) : string :=
  if b then "true" else "false".

End Py.

(** ** Data model *)

(** A header block in arrival order: [email.message.Message] keeps duplicates
    and looks names up without regard to case. *)
Definition Headers : Type := list (string * string).

(** [headers.get(name)]: the value of the first header of that name. *)
Fixpoint headers_get (name : string) (hs : Headers) : option string :=
  match hs with
  | [] => None
  | (k, v) :: hs' =>
      if String.eqb (Py.lower k) (Py.lower name) then Some v
      else headers_get name hs'
  end.

(** [name in headers] *)
Definition headers_contains (name : string) (hs : Headers) : bool :=
  match headers_get name hs with
  | Some _ => true
  | None => false
  end.

(** [headers[name]] where the name is known to be present. *)
Definition headers_getitem (name : string) (hs : Headers) : string :=
  default EmptyString (headers_get name hs).

(** The parsed inbound request, as the handler object holds it
    ([self.command], [self.path], [self.headers]), and the bytes that follow
    the headers on the connection ([self.rfile]). *)
Record Request : Type := {
  command : string;
  path : string;
  headers : Headers;
  body_stream : string }.

(** The dictionary built by [get_databricks_config]; its two keys are fixed. *)
Record Config : Type := {
  host : string;
  token : string }.

(** The object handed to [urllib.request.urlopen]. *)
Record OutRequest : Type := {
  full_url : string;
  out_headers : gmap string string;
  out_method : string;
  data : option string }.

(** What [urlopen] produced. *)
Record BackendResponse : Type := {
  resp_status : Z;
  resp_headers : Headers;
  resp_body : string }.

(** The exceptions the program distinguishes: [urllib.error.HTTPError] with
    its code, reason and optional body stream, and any other [Exception] with
    its [str()]. *)
Inductive Exn : Type :=
  | HTTPError (code : Z) (reason : string) (fp : option string)
  | Exception (msg : string).

(** Outcome of the inherited [SimpleHTTPRequestHandler.send_head] on the file
    system: a redirect to the directory URL, an error page (404), a
    conditional-request hit, or a document (a file, or a directory listing,
    which has no modification date).  These are the outcomes in which the
    library function returns; a target on which it raises instead (a NUL
    byte in the path makes [open] raise [ValueError]) has no outcome here. *)
Inductive StaticOutcome : Type :=
  | MovedPermanently (new_url : string)
  | StaticError (message : string)
  | NotModified
  | Document (ctype : string) (content_length : string)
             (last_modified : option string) (content : string).

(** The surroundings of one request. *)
Record World : Type := {
  environ : gmap string string;
  urlopen_result : OutRequest -> BackendResponse + Exn;
  send_head_result : Request -> StaticOutcome;
  date_time_string : string }.

(** The Python library functions the model takes as given: [int()] on a
    string ([None] when it raises [ValueError]), [repr()], the HTML page of
    [send_error] and the [Server] header value. *)
Record StdLib : Type := {
  py_int : string -> option Z;
  py_repr : string -> string;
  error_page : Z -> string -> string;
  version_string : string }.

(** The state the handlers act on: the module global, the unread part of the
    request body, the response under construction and the outbound calls made
    so far. *)
Record State : Type := {
  databricks_config : Config;
  rfile : string;
  status_line : option (Z * option string);
  headers_buffer : Headers;
  headers_ended : bool;
  wfile : string;
  urlopen_calls : list OutRequest }.

(** State at the start of a request: nothing sent yet. *)
Definition connect (cfg : Config) (self : Request) : State :=
  {| databricks_config := cfg; rfile := body_stream self; status_line := None;
     headers_buffer := []; headers_ended := false; wfile := EmptyString;
     urlopen_calls := [] |}.

(** ** The handler monad: state and exceptions *)

Inductive Result (A : Type) : Type :=
  | Ok (a : A)
  | Raise (e : Exn).
Arguments Ok {A} a.
Arguments Raise {A} e.

Definition M (A : Type) : Type := State -> Result A * State.

Definition ret {A : Type} (a : A) : M A := fun st => (Ok a, st).

Definition bind {A B : Type} (m : M A) (k : A -> M B) : M B :=
  fun st =>
    match m st with
    | (Ok a, st') => k a st'
    | (Raise e, st') => (Raise e, st')
    end.

Definition raise {A : Type} (e : Exn) : M A := fun st => (Raise e, st).

(** [try: m except e: h e] *)
Definition try_except {A : Type} (m : M A) (h : Exn -> M A) : M A :=
  fun st =>
    match m st with
    | (Ok a, st') => (Ok a, st')
    | (Raise e, st') => h e st'
    end.

Definition get_state : M State := fun st => (Ok st, st).

Definition modify (f : State -> State) : M unit := fun st => (Ok tt, f st).

Declare Scope handler_scope.
Delimit Scope handler_scope with handler.
Notation "'let*' x := m 'in' k" := (bind m (fun x => k))
  (at level 10, x name, m at level 100, k at level 200) : handler_scope.
Notation "m ;; k" := (bind m (fun _ => k))
  (at level 100, k at level 200, right associativity) : handler_scope.

(** [for x in xs: f x] *)
Fixpoint for_each {A : Type} (xs : list A) (f : A -> M unit) : M unit :=
  match xs with
  | [] => ret tt
  | x :: xs' => bind (f x) (fun _ => for_each xs' f)
  end.

(** ** State updates *)

Definition set_rfile (r : string) (st : State) : State :=
  {| databricks_config := databricks_config st; rfile := r;
     status_line := status_line st; headers_buffer := headers_buffer st;
     headers_ended := headers_ended st; wfile := wfile st;
     urlopen_calls := urlopen_calls st |}.

Definition set_status_line (s : Z * option string) (st : State) : State :=
  {| databricks_config := databricks_config st; rfile := rfile st;
     status_line := Some s; headers_buffer := headers_buffer st;
     headers_ended := headers_ended st; wfile := wfile st;
     urlopen_calls := urlopen_calls st |}.

Definition set_headers_buffer (hs : Headers) (st : State) : State :=
  {| databricks_config := databricks_config st; rfile := rfile st;
     status_line := status_line st; headers_buffer := hs;
     headers_ended := headers_ended st; wfile := wfile st;
     urlopen_calls := urlopen_calls st |}.

Definition set_headers_ended (b : bool) (st : State) : State :=
  {| databricks_config := databricks_config st; rfile := rfile st;
     status_line := status_line st; headers_buffer := headers_buffer st;
     headers_ended := b; wfile := wfile st;
     urlopen_calls := urlopen_calls st |}.

Definition set_wfile (out : string) (st : State) : State :=
  {| databricks_config := databricks_config st; rfile := rfile st;
     status_line := status_line st; headers_buffer := headers_buffer st;
     headers_ended := headers_ended st; wfile := out;
     urlopen_calls := urlopen_calls st |}.

Definition set_urlopen_calls (cs : list OutRequest) (st : State) : State :=
  {| databricks_config := databricks_config st; rfile := rfile st;
     status_line := status_line st; headers_buffer := headers_buffer st;
     headers_ended := headers_ended st; wfile := wfile st;
     urlopen_calls := cs |}.

(** [req.data = body] *)
Definition set_data (body : option string) (req : OutRequest) : OutRequest :=
  {| full_url := full_url req; out_headers := out_headers req;
     out_method := out_method req; data := body |}.

(** [os.getenv(key, default)] *)
Definition getenv (env : gmap string string) (key dflt : string) : string :=
  default dflt (env !! key).

(** Whether the Databricks SDK could be imported and what [SdkConfig()] did. *)
Inductive Sdk : Type :=
  | SdkNotAvailable
  | SdkRaises (msg : string)
  | SdkConfig (cfg_host : option string).

(** [get_databricks_config()] *)
Definition get_databricks_config (sdk : Sdk) (env : gmap string string)
  : Config :=
  match sdk with
  | SdkConfig cfg_host =>
      {| host := Py.or_else cfg_host (getenv env "DATABRICKS_HOST" EmptyString);
         token := getenv env "DATABRICKS_TOKEN" EmptyString |}
  | SdkRaises _ | SdkNotAvailable =>
      {| host := getenv env "DATABRICKS_HOST" EmptyString;
         token := getenv env "DATABRICKS_TOKEN" EmptyString |}
  end.

(** [config_js] of [do_GET]: the f-string, already encoded. *)
Definition config_js (databricks_host genie_space_id sql_warehouse_id : string)
  (is_obo : bool) (client_id : string) : string :=
"
// Runtime configuration injected by server
window.APP_CONFIG = {
  databricksHost: '" +:+ Py.or_else (Some databricks_host) EmptyString +:+ "',
  genieSpaceId: '" +:+ genie_space_id +:+ "',
  sqlWarehouseId: '" +:+ sql_warehouse_id +:+ "',
  isOBO: " +:+ Py.bool_lower is_obo +:+ ",
  clientId: '" +:+ client_id +:+ "'
};
console.log('✅ Runtime config loaded from server:', window.APP_CONFIG);
console.log('🔐 Authentication mode:', window.APP_CONFIG.isOBO ? 'OAuth/OBO' : 'Token');
".

Section CustomHandler.

Variable lib : StdLib.

Local Open Scope handler_scope.

(** *** Inherited from [http.server.BaseHTTPRequestHandler] *)

Definition send_header (keyword value : string) : M unit :=
  modify (fun st => set_headers_buffer (headers_buffer st ++ [(keyword, value)]) st).

(** [send_response(code, message)]: the status line, then the [Server] and
    [Date] headers.  [message = None] stands for the library's reason phrase. *)
Definition send_response (w : World) (code : Z) (message : option string)
  : M unit :=
  modify (set_status_line (code, message)) ;;
  send_header "Server" (version_string lib) ;;
  send_header "Date" (date_time_string w).

(** [super().end_headers()]: the header block is flushed. *)
Definition base_end_headers : M unit := modify (set_headers_ended true).

(** [self.wfile.write(b)] *)
Definition wfile_write (b : string) : M unit :=
  modify (fun st => set_wfile (wfile st +:+ b) st).

(** [self.rfile.read(n)] *)
Definition rfile_read (n : Z) : M string :=
  fun st =>
    (Ok (Py.take (Z.to_nat n) (rfile st)),
     set_rfile (Py.drop (Z.to_nat n) (rfile st)) st).

(** [urllib.request.urlopen(req)]: one outbound call; an error answer and a
    transport failure are raised. *)
Definition urlopen (w : World) (req : OutRequest) : M BackendResponse :=
  fun st =>
    let st' := set_urlopen_calls (urlopen_calls st ++ [req]) st in
    match urlopen_result w req with
    | inl response => (Ok response, st')
    | inr e => (Raise e, st')
    end.

(** *** [CustomHandler] *)

(** [end_headers(self)] *)
Definition end_headers (self : Request) : M unit :=
  (if Py.endswith ".html" (path self) || String.eqb (path self) "/"
      || String.eqb (path self) "/index.html"
   then send_header "Cache-Control" "no-cache, no-store, must-revalidate" ;;
        send_header "Pragma" "no-cache" ;;
        send_header "Expires" "0"
   else ret tt) ;;
  base_end_headers.

(** Inherited [send_error(code, message)]; it ends the headers through the
    override above.  The library encodes the status line as Latin-1 and
    raises for a message it cannot encode; messages are taken to be
    encodable, which the fixed messages of this program are. *)
Definition send_error (w : World) (self : Request) (code : Z)
  (message : string) : M unit :=
  send_response w code (Some message) ;;
  send_header "Connection" "close" ;;
  let has_body :=
    (200 <=? code) && negb (existsb (Z.eqb code) [204; 205; 304]) in
  let body := error_page lib code message in
  (if has_body
   then send_header "Content-Type" "text/html;charset=utf-8" ;;
        send_header "Content-Length" (pretty (String.length body))
   else ret tt) ;;
  end_headers self ;;
  if has_body && negb (String.eqb (command self) "HEAD") && Py.truthy body
  then wfile_write body
  else ret tt.

(** [proxy_api_request(self, method='GET', body=None)] *)
Definition proxy_api_request (w : World) (self : Request) (method : string)
  (body : option string) : M unit :=
  try_except
    (let* st := get_state in
     let host := host (databricks_config st) in
     if negb (Py.truthy host)
     then send_error w self 500 "Databricks host not configured"
     else
       let url := "https://" +:+ host +:+ path self in
       let headers0 : gmap string string :=
         {[ "Content-Type" := "application/json";
            "User-Agent" := "Databricks-App/1.0" ]} in
       let obo_token := headers_get "X-Forwarded-Access-Token" (headers self) in
       let headers1 :=
         if Py.truthy_opt obo_token
         then <[ "Authorization" := "Bearer " +:+ Py.fstr obo_token ]> headers0
         else if headers_contains "Authorization" (headers self)
         then <[ "Authorization" := headers_getitem "Authorization" (headers self) ]>
                headers0
         else headers0 in
       let req :=
         {| full_url := url; out_headers := headers1; out_method := method;
            data := None |} in
       let req := if Py.truthy_opt body then set_data body req else req in
       let* response := urlopen w req in
       send_response w (resp_status response) None ;;
       for_each (resp_headers response)
         (fun '(header, value) =>
            if negb (Py.in_list (Py.lower header)
                       ["transfer-encoding"; "connection"])
            then send_header header value
            else ret tt) ;;
       end_headers self ;;
       wfile_write (resp_body response))
    (fun e =>
       match e with
       | HTTPError code reason fp =>
           send_response w code None ;;
           send_header "Content-Type" "application/json" ;;
           end_headers self ;;
           let error_body := match fp with Some b => b | None => "{}" end in
           wfile_write error_body
       | Exception msg =>
           send_error w self 500 ("Proxy error: " +:+ msg)
       end).

(** Inherited [SimpleHTTPRequestHandler.send_head]: status and headers of the
    static answer; the document to copy, if any, is returned. *)
Definition send_head (w : World) (self : Request) : M (option string) :=
  match send_head_result w self with
  | MovedPermanently new_url =>
      send_response w 301 None ;;
      send_header "Location" new_url ;;
      send_header "Content-Length" "0" ;;
      end_headers self ;;
      ret None
  | StaticError message =>
      send_error w self 404 message ;;
      ret None
  | NotModified =>
      send_response w 304 None ;;
      end_headers self ;;
      ret None
  | Document ctype content_length last_modified content =>
      send_response w 200 None ;;
      send_header "Content-type" ctype ;;
      send_header "Content-Length" content_length ;;
      match last_modified with
      | Some d => send_header "Last-Modified" d
      | None => ret tt
      end ;;
      end_headers self ;;
      ret (Some content)
  end.

(** [super().do_GET()] *)
Definition super_do_GET (w : World) (self : Request) : M unit :=
  let* f := send_head w self in
  match f with
  | Some content => wfile_write content
  | None => ret tt
  end.

(** Inherited [do_HEAD]: the headers only. *)
Definition do_HEAD (w : World) (self : Request) : M unit :=
  send_head w self ;;
  ret tt.

(** [do_GET(self)] *)
Definition do_GET (w : World) (self : Request) : M unit :=
  if Py.startswith "/api/" (path self)
  then proxy_api_request w self "GET" None
  else if String.eqb (path self) "/config.js"
  then
    send_response w 200 None ;;
    send_header "Content-type" "application/javascript" ;;
    send_header "Cache-Control" "no-cache, no-store, must-revalidate" ;;
    end_headers self ;;
    let* st := get_state in
    let databricks_host := host (databricks_config st) in
    let genie_space_id := getenv (environ w) "GENIE_SPACE_ID" EmptyString in
    let sql_warehouse_id := getenv (environ w) "SQL_WAREHOUSE_ID" EmptyString in
    let client_id := getenv (environ w) "DATABRICKS_CLIENT_ID" EmptyString in
    let is_obo := Py.truthy client_id in
    wfile_write
      (config_js databricks_host genie_space_id sql_warehouse_id is_obo client_id)
  else super_do_GET w self.

(** The two lines shared by [do_POST], [do_PUT] and [do_PATCH]:
    [content_length = int(self.headers.get('Content-Length', 0))] and
    [body = self.rfile.read(content_length) if content_length > 0 else None]. *)
Definition read_body (self : Request) : M (option string) :=
  let* content_length :=
    match headers_get "Content-Length" (headers self) with
    | None => ret 0
    | Some s =>
        match py_int lib s with
        | Some n => ret n
        | None =>
            raise (Exception ("invalid literal for int() with base 10: "
                              +:+ py_repr lib s))
        end
    end in
  if 0 <? content_length
  then let* b := rfile_read content_length in ret (Some b)
  else ret None.

(** [do_POST(self)] *)
Definition do_POST (w : World) (self : Request) : M unit :=
  if Py.startswith "/api/" (path self)
  then let* body := read_body self in proxy_api_request w self "POST" body
  else send_error w self 405 "Method not allowed".

(** [do_DELETE(self)] *)
Definition do_DELETE (w : World) (self : Request) : M unit :=
  if Py.startswith "/api/" (path self)
  then proxy_api_request w self "DELETE" None
  else send_error w self 405 "Method not allowed".

(** [do_PUT(self)] *)
Definition do_PUT (w : World) (self : Request) : M unit :=
  if Py.startswith "/api/" (path self)
  then let* body := read_body self in proxy_api_request w self "PUT" body
  else send_error w self 405 "Method not allowed".

(** [do_PATCH(self)] *)
Definition do_PATCH (w : World) (self : Request) : M unit :=
  if Py.startswith "/api/" (path self)
  then let* body := read_body self in proxy_api_request w self "PATCH" body
  else send_error w self 405 "Method not allowed".

(** Inherited [handle_one_request], after parsing: the method [do_<command>]
    is called if the class has one, and 501 is answered otherwise. *)
Definition handle_one_request (w : World) (self : Request) : M unit :=
  if String.eqb (command self) "GET" then do_GET w self
  else if String.eqb (command self) "HEAD" then do_HEAD w self
  else if String.eqb (command self) "POST" then do_POST w self
  else if String.eqb (command self) "DELETE" then do_DELETE w self
  else if String.eqb (command self) "PUT" then do_PUT w self
  else if String.eqb (command self) "PATCH" then do_PATCH w self
  else send_error w self 501
         ("Unsupported method (" +:+ py_repr lib (command self) +:+ ")").

(** One request on a fresh connection, with the global as it stands. *)
Definition serve (cfg : Config) (w : World) (self : Request)
  : Result unit * State :=
  handle_one_request w self (connect cfg self).

(** [httpd.serve_forever()] over the requests that arrive, one at a time; the
    global is whatever the previous handler left. *)
Fixpoint serve_forever (cfg : Config) (reqs : list (World * Request))
  : list (Result unit * State) :=
  match reqs with
  | [] => []
  | (w, self) :: rest =>
      let r := serve cfg w self in
      r :: serve_forever (databricks_config (snd r)) rest
  end.

(** The module body followed by the main block: the configuration is resolved
    from the SDK and the environment of the start, then requests are served. *)
Definition main (sdk : Sdk) (env0 : gmap string string)
  (reqs : list (World * Request)) : list (Result unit * State) :=
  let databricks_config := get_databricks_config sdk env0 in
  serve_forever databricks_config reqs.

(** *** What the handlers leave behind, in closed form *)

(** The headers [end_headers] adds before ending the block. *)
Definition no_cache_headers (self : Request) : Headers :=
  if Py.endswith ".html" (path self) || String.eqb (path self) "/"
     || String.eqb (path self) "/index.html"
  then [("Cache-Control", "no-cache, no-store, must-revalidate");
        ("Pragma", "no-cache"); ("Expires", "0")]
  else [].

(** The backend headers that the relay loop sends on. *)
Definition relayed_headers (hs : Headers) : Headers :=
  List.filter
    (fun '(header, _) =>
       negb (Py.in_list (Py.lower header) ["transfer-encoding"; "connection"]))
    hs.

(** A finished answer on top of [st]: status line, further headers, header
    block ended, further output. *)
Definition sent (st : State) (s : Z * option string) (hs : Headers)
  (out : string) : State :=
  {| databricks_config := databricks_config st; rfile := rfile st;
     status_line := Some s; headers_buffer := headers_buffer st ++ hs;
     headers_ended := true; wfile := wfile st +:+ out;
     urlopen_calls := urlopen_calls st |}.

(** The two headers of [send_response]. *)
Definition server_date (w : World) : Headers :=
  [("Server", version_string lib); ("Date", date_time_string w)].

(** State after [send_error]. *)
Definition error_answer (w : World) (self : Request) (code : Z)
  (message : string) (st : State) : State :=
  let has_body :=
    (200 <=? code) && negb (existsb (Z.eqb code) [204; 205; 304]) in
  let body := error_page lib code message in
  sent st (code, Some message)
    (server_date w ++ [("Connection", "close")] ++
     (if has_body
      then [("Content-Type", "text/html;charset=utf-8");
            ("Content-Length", pretty (String.length body))]
      else []) ++
     no_cache_headers self)
    (if has_body && negb (String.eqb (command self) "HEAD") && Py.truthy body
     then body else EmptyString).

(** The request [proxy_api_request] hands to [urlopen]. *)
Definition outbound_request (cfg : Config) (self : Request) (method : string)
  (body : option string) : OutRequest :=
  let headers0 : gmap string string :=
    {[ "Content-Type" := "application/json";
       "User-Agent" := "Databricks-App/1.0" ]} in
  {| full_url := "https://" +:+ host cfg +:+ path self;
     out_headers :=
       if Py.truthy_opt (headers_get "X-Forwarded-Access-Token" (headers self))
       then <[ "Authorization" :=
                 "Bearer " +:+
                 Py.fstr (headers_get "X-Forwarded-Access-Token" (headers self)) ]>
              headers0
       else if headers_contains "Authorization" (headers self)
       then <[ "Authorization" := headers_getitem "Authorization" (headers self) ]>
              headers0
       else headers0;
     out_method := method;
     data := if Py.truthy_opt body then body else None |}.

(** State after [proxy_api_request]. *)
Definition proxy_answer (w : World) (self : Request) (method : string)
  (body : option string) (st : State) : State :=
  if negb (Py.truthy (host (databricks_config st)))
  then error_answer w self 500 "Databricks host not configured" st
  else
    let req := outbound_request (databricks_config st) self method body in
    let st1 := set_urlopen_calls (urlopen_calls st ++ [req]) st in
    match urlopen_result w req with
    | inl response =>
        sent st1 (resp_status response, None)
          (server_date w ++ relayed_headers (resp_headers response) ++
           no_cache_headers self)
          (resp_body response)
    | inr (HTTPError code _ fp) =>
        sent st1 (code, None)
          (server_date w ++ [("Content-Type", "application/json")] ++
           no_cache_headers self)
          (match fp with Some b => b | None => "{}" end)
    | inr (Exception msg) =>
        error_answer w self 500 ("Proxy error: " +:+ msg) st1
    end.

(** State after the inherited [send_head], and after [super().do_GET()] when
    [copy] is set. *)
Definition static_answer (w : World) (self : Request) (copy : bool)
  (st : State) : State :=
  match send_head_result w self with
  | MovedPermanently new_url =>
      sent st (301, None)
        (server_date w ++ [("Location", new_url); ("Content-Length", "0")] ++
         no_cache_headers self)
        EmptyString
  | StaticError message => error_answer w self 404 message st
  | NotModified =>
      sent st (304, None) (server_date w ++ no_cache_headers self) EmptyString
  | Document ctype content_length last_modified content =>
      sent st (200, None)
        (server_date w ++
         [("Content-type", ctype); ("Content-Length", content_length)] ++
         match last_modified with
         | Some d => [("Last-Modified", d)]
         | None => []
         end ++
         no_cache_headers self)
        (if copy then content else EmptyString)
  end.

End CustomHandler.

(** ** Sample surroundings, used to exercise the statements below *)

Fixpoint decimal (acc : Z) (s : string) : option Z :=
  match s with
  | EmptyString => Some acc
  | String c s' =>
      match Ascii.is_nat c with
      | Some d => decimal (10 * acc + Z.of_nat d) s'
      | None => None
      end
  end.

Definition sample_lib : StdLib :=
  {| py_int := fun s => if Py.truthy s then decimal 0 s else None;
     py_repr := fun s => "'" +:+ s +:+ "'";
     error_page := fun code message =>
       "<h1>Error response</h1><p>Message: " +:+ message +:+ ".</p>";
     version_string := "SimpleHTTP/0.6 Python/3.11.2" |}.

Definition dquote : string := String "034"%char EmptyString.

(** The JSON text [{"error":"not found"}]. *)
Definition not_found_json : string :=
  "{" +:+ dquote +:+ "error" +:+ dquote +:+ ":" +:+ dquote +:+ "not found"
  +:+ dquote +:+ "}".

Definition backend_ok (req : OutRequest) : BackendResponse + Exn :=
  inl {| resp_status := 200;
         resp_headers := [("Content-Type", "application/json");
                          ("Transfer-Encoding", "chunked");
                          ("connection", "keep-alive");
                          ("X-Request-Id", "7f3a")];
         resp_body := "{}" |}.

Definition backend_not_found (req : OutRequest) : BackendResponse + Exn :=
  inr (HTTPError 404 "Not Found" (Some not_found_json)).

Definition sample_world (env : gmap string string)
  (backend : OutRequest -> BackendResponse + Exn) : World :=
  {| environ := env;
     urlopen_result := backend;
     send_head_result := fun self =>
       if String.eqb (path self) "/app.js"
       then Document "text/javascript" "14" (Some "Mon, 02 Nov 2026 09:30:00 GMT")
              "console.log(1)"
       else StaticError "File not found";
     date_time_string := "Tue, 03 Nov 2026 11:00:00 GMT" |}.

Definition sample_config : Config :=
  {| host := "adb-1234.5.azuredatabricks.net"; token := EmptyString |}.


Definition sample_request (cmd target : string) (hs : Headers) (body : string)
  : Request :=
  {| command := cmd; path := target; headers := hs; body_stream := body |}.

Definition list_clusters : Request :=
  sample_request "GET" "/api/2.0/clusters/list?limit=25&name=a%20b"
    [("Host", "app.example.com")] EmptyString.

Definition with_forwarded_token : Request :=
  sample_request "GET" "/api/2.0/clusters/list"
    [("X-Forwarded-Access-Token", "tok123"); ("Authorization", "Bearer own")]
    EmptyString.

Definition with_empty_forwarded_token : Request :=
  sample_request "GET" "/api/2.0/clusters/list"
    [("X-Forwarded-Access-Token", EmptyString);
     ("Authorization", "Basic dXNlcjpwdw==")]
    EmptyString.


Definition get_config_js : Request :=
  sample_request "GET" "/config.js" [] EmptyString.




Definition get_index_html : Request :=
  sample_request "GET" "/index.html" [] EmptyString.

Definition get_app_js : Request :=
  sample_request "GET" "/app.js" [] EmptyString.

(** ** Further samples *)

(** A backend that cannot be reached. *)
Definition backend_down (req : OutRequest) : BackendResponse + Exn :=
  inr (Exception "<urlopen error [Errno 111] Connection refused>").

Definition post_statement : Request :=
  sample_request "POST" "/api/2.0/sql/statements"
    [("content-length", "8"); ("authorization", "Bearer own");
     ("Cookie", "session=1")]
    "{'q': 1}GET /next HTTP/1.1".

Definition put_bad_length : Request :=
  sample_request "PUT" "/api/2.0/permissions/jobs/7"
    [("Content-Length", "ten")] "{'a': 1}".

Definition get_logo : Request :=
  sample_request "GET" "/assets/logo.svg" [("Cookie", "session=1")] EmptyString.

Definition with_forwarded_token_lower : Request :=
  sample_request "GET" "/api/2.0/clusters/list"
    [("x-forwarded-access-token", "tok123"); ("AUTHORIZATION", "Bearer own")]
    EmptyString.

(** An environment in which [DATABRICKS_HOST] appears only after start. *)
Definition late_world : World :=
  sample_world {[ "DATABRICKS_HOST" := "late.example.net";
                  "GENIE_SPACE_ID" := "01ef" ]} backend_ok.

(** ** Text that the status line can carry *)

(** [s.isascii()] *)
Fixpoint isascii (s : string) : bool :=
  match s with
  | EmptyString => true
  | String c s' => (nat_of_ascii c <? 128)%nat && isascii s'
  end.

(** ** The configuration with another token *)

(** The state [st] had [DATABRICKS_TOKEN] been [t] at start. *)
Definition retoken (t : string) (st : State) : State :=
  {| databricks_config :=
       {| host := host (databricks_config st); token := t |};
     rfile := rfile st; status_line := status_line st;
     headers_buffer := headers_buffer st; headers_ended := headers_ended st;
     wfile := wfile st; urlopen_calls := urlopen_calls st |}.

(** * Properties *)

Section Properties.

Variable lib : StdLib.

(** ** Running the primitives *)

Ltac unfold_prims :=
  cbv beta iota delta
    [send_response send_header base_end_headers wfile_write modify bind ret
     get_state raise set_rfile set_status_line set_headers_buffer
     set_headers_ended set_wfile set_urlopen_calls sent server_date];
  cbn [databricks_config rfile status_line headers_buffer headers_ended wfile
       urlopen_calls fst snd].

Lemma append_cons (c : ascii) (s t : string) :
  String c s +:+ t = String c (s +:+ t).
Proof. reflexivity. Qed.

Lemma append_empty_l (t : string) : EmptyString +:+ t = t.
Proof. reflexivity. Qed.

Lemma append_empty_r (s : string) : s +:+ EmptyString = s.
Proof.
  induction s as [|c s IH]; [reflexivity|].
  rewrite append_cons, IH. reflexivity.
Qed.

Lemma end_headers_run self st :
  end_headers self st =
  (Ok tt, set_headers_ended true
            (set_headers_buffer (headers_buffer st ++ no_cache_headers self) st)).
Proof.
  unfold end_headers, no_cache_headers.
  destruct (Py.endswith ".html" (path self) || String.eqb (path self) "/"
            || String.eqb (path self) "/index.html"); unfold_prims.
  - rewrite <- !app_assoc. reflexivity.
  - rewrite app_nil_r. reflexivity.
Qed.

Lemma relay_loop_run (hs : Headers) st :
  for_each hs
    (fun '(header, value) =>
       if negb (Py.in_list (Py.lower header) ["transfer-encoding"; "connection"])
       then send_header header value
       else ret tt) st =
  (Ok tt, set_headers_buffer (headers_buffer st ++ relayed_headers hs) st).
Proof.
  revert st. induction hs as [|[h v] hs IH]; intros st.
  - destruct st. unfold_prims. cbn. rewrite app_nil_r. reflexivity.
  - cbn [for_each relayed_headers List.filter].
    destruct (negb (Py.in_list (Py.lower h) ["transfer-encoding"; "connection"])).
    + unfold bind at 1. unfold send_header at 1, modify. rewrite IH.
      unfold_prims. rewrite <- app_assoc. reflexivity.
    + unfold bind at 1, ret at 1. rewrite IH. reflexivity.
Qed.

Lemma send_error_run w self code message st :
  send_error lib w self code message st =
  (Ok tt, error_answer lib w self code message st).
Proof.
  unfold send_error, error_answer.
  destruct ((200 <=? code) && negb (existsb (Z.eqb code) [204; 205; 304]));
    cbn [andb]; unfold_prims; rewrite end_headers_run;
    [destruct (negb (String.eqb (command self) "HEAD")
               && Py.truthy (error_page lib code message))|];
    unfold_prims; rewrite <- ?app_assoc; cbn [app];
    rewrite ?append_empty_r; reflexivity.
Qed.

Lemma bind_run {A B : Type} (m : M A) (k : A -> M B) st :
  bind m k st =
  match m st with
  | (Ok a, st') => k a st'
  | (Raise e, st') => (Raise e, st')
  end.
Proof. reflexivity. Qed.

Lemma send_header_run keyword value st :
  send_header keyword value st =
  (Ok tt, set_headers_buffer (headers_buffer st ++ [(keyword, value)]) st).
Proof. reflexivity. Qed.

Lemma send_response_run w code message st :
  send_response lib w code message st =
  (Ok tt, set_headers_buffer (headers_buffer st ++ server_date lib w)
            (set_status_line (code, message) st)).
Proof. unfold_prims. rewrite <- app_assoc. reflexivity. Qed.

Lemma wfile_write_run b st :
  wfile_write b st = (Ok tt, set_wfile (wfile st +:+ b) st).
Proof. reflexivity. Qed.

Ltac step :=
  rewrite bind_run;
  first [ rewrite send_response_run | rewrite send_header_run
        | rewrite end_headers_run | rewrite relay_loop_run
        | rewrite wfile_write_run | rewrite send_error_run ];
  cbv beta iota.

Ltac finish :=
  unfold_prims; rewrite <- ?app_assoc; cbn [app];
  rewrite ?append_empty_r; reflexivity.

Lemma proxy_api_request_run w self method body st :
  proxy_api_request lib w self method body st =
  (Ok tt, proxy_answer lib w self method body st).
Proof.
  unfold proxy_api_request, proxy_answer, try_except.
  rewrite bind_run. unfold get_state at 1. cbv beta iota zeta.
  destruct (negb (Py.truthy (host (databricks_config st)))).
  - rewrite send_error_run. reflexivity.
  - match goal with
    | |- context [urlopen w ?r] =>
        replace r with (outbound_request (databricks_config st) self method body)
          by (unfold outbound_request, set_data;
              destruct (Py.truthy_opt body); reflexivity)
    end.
    rewrite bind_run. unfold urlopen at 1.
    destruct (urlopen_result w _) as [response | [code reason fp | msg]].
    + repeat step. rewrite wfile_write_run. finish.
    + repeat step. rewrite wfile_write_run. finish.
    + rewrite send_error_run. reflexivity.
Qed.

Lemma truthy_true (s : string) : Py.truthy s = true <-> s <> EmptyString.
Proof. destruct s; cbn; split; congruence. Qed.

Lemma proxy_answer_configured w self method body st :
  host (databricks_config st) <> EmptyString ->
  proxy_answer lib w self method body st =
  let req := outbound_request (databricks_config st) self method body in
  let st1 := set_urlopen_calls (urlopen_calls st ++ [req]) st in
  match urlopen_result w req with
  | inl response =>
      sent st1 (resp_status response, None)
        (server_date lib w ++ relayed_headers (resp_headers response) ++
         no_cache_headers self)
        (resp_body response)
  | inr (HTTPError code _ fp) =>
      sent st1 (code, None)
        (server_date lib w ++ [("Content-Type", "application/json")] ++
         no_cache_headers self)
        (match fp with Some b => b | None => "{}" end)
  | inr (Exception msg) =>
      error_answer lib w self 500 ("Proxy error: " +:+ msg) st1
  end.
Proof.
  intros Hhost. apply truthy_true in Hhost.
  unfold proxy_answer. rewrite Hhost. reflexivity.
Qed.

Lemma proxy_answer_calls w self method body st :
  host (databricks_config st) <> EmptyString ->
  urlopen_calls (proxy_answer lib w self method body st) =
  urlopen_calls st ++ [outbound_request (databricks_config st) self method body].
Proof.
  intros Hhost. rewrite proxy_answer_configured by assumption. cbv zeta.
  destruct (urlopen_result w _) as [response | [code reason fp | msg]];
    reflexivity.
Qed.

(** C4: with a configured host, the URL handed to [urlopen] is "https://"
    followed by the host and by the request path (query string included) as
    received; it is the only outbound call and it uses the inbound method. *)
Theorem outbound_url w self method body st :
  host (databricks_config st) <> EmptyString ->
  exists req,
    urlopen_calls (snd (proxy_api_request lib w self method body st)) =
      urlopen_calls st ++ [req] /\
    full_url req = "https://" +:+ host (databricks_config st) +:+ path self /\
    out_method req = method.
Proof.
  intros Hhost. rewrite proxy_api_request_run. cbn [snd].
  eexists. split; [apply proxy_answer_calls; assumption|]. split; reflexivity.
Qed.

(** C1 (amended): the outbound [Authorization] header follows a strict order.
    A non-empty [X-Forwarded-Access-Token] value [T] gives "Bearer T" whatever
    else the request carries; when that header is absent or empty, an inbound
    [Authorization: V] is forwarded as [V]; otherwise no [Authorization]
    header is sent. *)
Theorem authorization_priority w self method body st :
  host (databricks_config st) <> EmptyString ->
  exists req,
    urlopen_calls (snd (proxy_api_request lib w self method body st)) =
      urlopen_calls st ++ [req] /\
    let forwarded := headers_get "X-Forwarded-Access-Token" (headers self) in
    let inbound := headers_get "Authorization" (headers self) in
    (forall T, forwarded = Some T -> T <> EmptyString ->
       out_headers req !! "Authorization" = Some ("Bearer " +:+ T)) /\
    (forall V, forwarded = None \/ forwarded = Some EmptyString ->
       inbound = Some V -> out_headers req !! "Authorization" = Some V) /\
    (forwarded = None \/ forwarded = Some EmptyString ->
       inbound = None -> out_headers req !! "Authorization" = None).
Proof.
  intros Hhost. rewrite proxy_api_request_run. cbn [snd].
  eexists. split; [apply proxy_answer_calls; assumption|].
  cbv zeta. unfold outbound_request, headers_contains, headers_getitem.
  cbn [out_headers]. repeat split.
  - intros T -> HT. apply truthy_true in HT. cbn [Py.truthy_opt Py.fstr].
    rewrite HT. apply lookup_insert_eq.
  - intros V Hfw ->. cbn [default].
    destruct Hfw as [-> | ->]; cbn; apply lookup_insert_eq.
  - intros Hfw ->. destruct Hfw as [-> | ->]; reflexivity.
Qed.

(** C3: when the backend answers with an HTTP error that has a body, the
    proxy relays the backend's status code, sends
    [Content-Type: application/json] and writes the backend's error body
    unchanged. *)
Theorem backend_error_relayed w self method body st req code reason b :
  host (databricks_config st) <> EmptyString ->
  urlopen_calls (snd (proxy_api_request lib w self method body st)) =
    urlopen_calls st ++ [req] ->
  urlopen_result w req = inr (HTTPError code reason (Some b)) ->
  let r := proxy_api_request lib w self method body st in
  fst r = Ok tt /\
  status_line (snd r) = Some (code, None) /\
  headers_buffer (snd r) =
    headers_buffer st ++ server_date lib w ++
    [("Content-Type", "application/json")] ++ no_cache_headers self /\
  wfile (snd r) = wfile st +:+ b.
Proof.
  intros Hhost Hcalls Hres r. subst r. revert Hcalls.
  rewrite proxy_api_request_run. cbn [fst snd].
  rewrite proxy_answer_calls by assumption.
  intros Heq. apply app_inv_head in Heq. injection Heq as <-.
  rewrite proxy_answer_configured by assumption. cbv zeta.
  rewrite Hres. cbn. auto.
Qed.

Lemma in_list_false (s : string) (l : list string) :
  Py.in_list s l = false <-> s ∉ l.
Proof.
  unfold Py.in_list. induction l as [|x l IH]; cbn.
  - split; [intros _; apply not_elem_of_nil | reflexivity].
  - rewrite orb_false_iff, IH, not_elem_of_cons, String.eqb_neq. tauto.
Qed.

Lemma relayed_headers_spec (hs : Headers) k v :
  (k, v) ∈ relayed_headers hs <->
  (k, v) ∈ hs /\ Py.lower k ∉ ["transfer-encoding"; "connection"].
Proof.
  unfold relayed_headers.
  rewrite (list_elem_of_In _ (k, v)), filter_In, negb_true_iff, in_list_false.
  rewrite <- list_elem_of_In. reflexivity.
Qed.

Lemma no_cache_headers_names self k v :
  (k, v) ∈ no_cache_headers self ->
  k ∈ ["Cache-Control"; "Pragma"; "Expires"].
Proof.
  unfold no_cache_headers.
  destruct (_ || _); [|intros H; inversion H].
  rewrite !elem_of_cons, elem_of_nil.
  intros [H | [H | [H | []]]]; injection H as -> _; set_solver.
Qed.

(** C5: a successful backend answer is relayed with its status code and its
    body unchanged; every backend header other than [Transfer-Encoding] and
    [Connection] is sent on, in order, and no header of the relayed answer
    bears one of those two names. *)
Theorem success_relayed w self method body st req response :
  host (databricks_config st) <> EmptyString ->
  urlopen_calls (snd (proxy_api_request lib w self method body st)) =
    urlopen_calls st ++ [req] ->
  urlopen_result w req = inl response ->
  let r := proxy_api_request lib w self method body st in
  fst r = Ok tt /\
  status_line (snd r) = Some (resp_status response, None) /\
  wfile (snd r) = wfile st +:+ resp_body response /\
  exists added,
    headers_buffer (snd r) = headers_buffer st ++ added /\
    added = server_date lib w ++ relayed_headers (resp_headers response) ++
            no_cache_headers self /\
    (forall k v, (k, v) ∈ added ->
       Py.lower k ∉ ["transfer-encoding"; "connection"]) /\
    (forall k v, (k, v) ∈ resp_headers response ->
       Py.lower k ∉ ["transfer-encoding"; "connection"] -> (k, v) ∈ added).
Proof.
  intros Hhost Hcalls Hres r. subst r. revert Hcalls.
  rewrite proxy_api_request_run. cbn [fst snd].
  rewrite proxy_answer_calls by assumption.
  intros Heq. apply app_inv_head in Heq. injection Heq as <-.
  rewrite proxy_answer_configured by assumption. cbv zeta.
  rewrite Hres. cbn [sent status_line wfile headers_buffer set_urlopen_calls].
  repeat split. eexists. split; [reflexivity|]. split; [reflexivity|]. split.
  - intros k v. rewrite !elem_of_app, relayed_headers_spec.
    intros [Hsd | [[_ Hk] | Hnc]].
    + unfold server_date in Hsd. rewrite !elem_of_cons, elem_of_nil in Hsd.
      destruct Hsd as [H | [H | []]]; injection H as -> _;
        apply in_list_false; reflexivity.
    + exact Hk.
    + apply no_cache_headers_names in Hnc.
      rewrite !elem_of_cons, elem_of_nil in Hnc.
      destruct Hnc as [-> | [-> | [-> | []]]]; apply in_list_false; reflexivity.
  - intros k v Hin Hk. rewrite !elem_of_app, relayed_headers_spec. auto.
Qed.

(** ** Running the handlers *)

Lemma send_head_run w self st :
  exists f, send_head lib w self st = (Ok f, static_answer lib w self false st).
Proof.
  unfold send_head, static_answer.
  destruct (send_head_result w self) as [new_url | message | | ctype len lm content];
    eexists.
  - repeat step. unfold ret. finish.
  - step. unfold ret. reflexivity.
  - repeat step. unfold ret. finish.
  - repeat step. destruct lm as [d|].
    + repeat step. unfold ret. finish.
    + rewrite bind_run. unfold ret at 1. cbv beta iota. repeat step.
      unfold ret. finish.
Qed.

Lemma super_do_GET_run w self st :
  super_do_GET lib w self st = (Ok tt, static_answer lib w self true st).
Proof.
  unfold super_do_GET, send_head, static_answer.
  destruct (send_head_result w self) as [new_url | message | | ctype len lm content].
  - rewrite bind_run. repeat step. unfold ret. finish.
  - rewrite bind_run. step. unfold ret. reflexivity.
  - rewrite bind_run. repeat step. unfold ret. finish.
  - rewrite bind_run. repeat step. destruct lm as [d|].
    + repeat step. unfold ret. cbv beta iota. rewrite wfile_write_run. finish.
    + rewrite bind_run. unfold ret at 1. cbv beta iota. repeat step.
      unfold ret. cbv beta iota. rewrite wfile_write_run. finish.
Qed.

Lemma do_HEAD_run w self st :
  do_HEAD lib w self st = (Ok tt, static_answer lib w self false st).
Proof.
  unfold do_HEAD. rewrite bind_run.
  destruct (send_head_run w self st) as [f ->]. reflexivity.
Qed.

(** [read_body] either raises before touching anything, or returns a body
    after consuming part of [rfile] and nothing else. *)
Lemma read_body_run self st :
  (exists e, read_body lib self st = (Raise e, st)) \/
  (exists body r, read_body lib self st = (Ok body, set_rfile r st)).
Proof.
  unfold read_body. rewrite bind_run.
  destruct (headers_get "Content-Length" (headers self)) as [s|].
  - destruct (py_int lib s) as [n|].
    + right. unfold ret at 1. cbv beta iota. destruct (0 <? n).
      * rewrite bind_run. unfold rfile_read. eauto.
      * exists None, (rfile st). destruct st. reflexivity.
    + left. eexists. reflexivity.
  - right. unfold ret at 1. cbv beta iota. cbn [Z.ltb Z.compare].
    exists None, (rfile st). destruct st. reflexivity.
Qed.

Lemma config_js_run w self st :
  (send_response lib w 200 None ;;
   send_header "Content-type" "application/javascript" ;;
   send_header "Cache-Control" "no-cache, no-store, must-revalidate" ;;
   end_headers self ;;
   let* st := get_state in
   let databricks_host := host (databricks_config st) in
   let genie_space_id := getenv (environ w) "GENIE_SPACE_ID" EmptyString in
   let sql_warehouse_id := getenv (environ w) "SQL_WAREHOUSE_ID" EmptyString in
   let client_id := getenv (environ w) "DATABRICKS_CLIENT_ID" EmptyString in
   let is_obo := Py.truthy client_id in
   wfile_write
     (config_js databricks_host genie_space_id sql_warehouse_id is_obo client_id))%handler
    st =
  (Ok tt,
   sent st (200, None)
     (server_date lib w ++
      [("Content-type", "application/javascript");
       ("Cache-Control", "no-cache, no-store, must-revalidate")] ++
      no_cache_headers self)
     (config_js (host (databricks_config st))
        (getenv (environ w) "GENIE_SPACE_ID" EmptyString)
        (getenv (environ w) "SQL_WAREHOUSE_ID" EmptyString)
        (Py.truthy (getenv (environ w) "DATABRICKS_CLIENT_ID" EmptyString))
        (getenv (environ w) "DATABRICKS_CLIENT_ID" EmptyString))).
Proof.
  repeat step. rewrite bind_run. unfold get_state at 1. cbv beta iota zeta.
  rewrite wfile_write_run. finish.
Qed.

(** ** Every answer ends through [end_headers] *)

Lemma error_answer_shape w self code message st :
  exists hs out,
    error_answer lib w self code message st =
    sent st (code, Some message) (hs ++ no_cache_headers self) out.
Proof.
  unfold error_answer. rewrite !app_assoc. do 2 eexists. reflexivity.
Qed.

Lemma proxy_answer_shape w self method body st :
  exists st0 s hs out,
    databricks_config st0 = databricks_config st /\
    headers_buffer st0 = headers_buffer st /\
    rfile st0 = rfile st /\
    proxy_answer lib w self method body st =
    sent st0 s (hs ++ no_cache_headers self) out.
Proof.
  unfold proxy_answer.
  destruct (negb (Py.truthy (host (databricks_config st)))).
  - destruct (error_answer_shape w self 500 "Databricks host not configured" st)
      as (hs & out & ->).
    exists st. eauto 10.
  - cbv zeta. set (st1 := set_urlopen_calls _ st).
    destruct (urlopen_result w _) as [response | [code reason fp | msg]].
    + rewrite !app_assoc. exists st1. do 3 eexists. repeat split.
    + rewrite !app_assoc. exists st1. do 3 eexists. repeat split.
    + destruct (error_answer_shape w self 500 ("Proxy error: " +:+ msg) st1)
        as (hs & out & ->).
      exists st1. eauto 10.
Qed.

Lemma static_answer_shape w self copy st :
  exists s hs out,
    static_answer lib w self copy st =
    sent st s (hs ++ no_cache_headers self) out.
Proof.
  unfold static_answer.
  destruct (send_head_result w self) as [new_url | message | | ctype len lm content].
  - rewrite !app_assoc. do 3 eexists. reflexivity.
  - destruct (error_answer_shape w self 404 message st) as (hs & out & ->).
    eauto.
  - do 3 eexists. reflexivity.
  - rewrite !app_assoc. do 3 eexists. reflexivity.
Qed.

(** A handler either raises before anything was sent, or leaves an answer
    whose header block was closed by [end_headers]; it never writes the
    global configuration. *)
Lemma handle_one_request_outcome w self st :
  (exists e, handle_one_request lib w self st = (Raise e, st)) \/
  (exists st0 s hs out,
     databricks_config st0 = databricks_config st /\
     headers_buffer st0 = headers_buffer st /\
     handle_one_request lib w self st =
     (Ok tt, sent st0 s (hs ++ no_cache_headers self) out)).
Proof.
  assert (Hproxy : forall method body st1,
    databricks_config st1 = databricks_config st ->
    headers_buffer st1 = headers_buffer st ->
    exists st0 s hs out,
      databricks_config st0 = databricks_config st /\
      headers_buffer st0 = headers_buffer st /\
      proxy_api_request lib w self method body st1 =
      (Ok tt, sent st0 s (hs ++ no_cache_headers self) out)).
  { intros method body st1 Hc Hh. rewrite proxy_api_request_run.
    destruct (proxy_answer_shape w self method body st1)
      as (st0 & s & hs & out & Hc0 & Hh0 & _ & ->).
    exists st0, s, hs, out. repeat split; congruence. }
  assert (Herr : forall code message,
    exists st0 s hs out,
      databricks_config st0 = databricks_config st /\
      headers_buffer st0 = headers_buffer st /\
      send_error lib w self code message st =
      (Ok tt, sent st0 s (hs ++ no_cache_headers self) out)).
  { intros code message. rewrite send_error_run.
    destruct (error_answer_shape w self code message st) as (hs & out & ->).
    exists st. eauto 10. }
  assert (Hbody : forall method,
    (exists e, (let* body := read_body lib self in
                proxy_api_request lib w self method body)%handler st
               = (Raise e, st)) \/
    (exists st0 s hs out,
       databricks_config st0 = databricks_config st /\
       headers_buffer st0 = headers_buffer st /\
       (let* body := read_body lib self in
        proxy_api_request lib w self method body)%handler st =
       (Ok tt, sent st0 s (hs ++ no_cache_headers self) out))).
  { intros method. rewrite bind_run.
    destruct (read_body_run self st) as [[e ->] | (body & r & ->)].
    - left. eauto.
    - right. apply Hproxy; reflexivity. }
  unfold handle_one_request.
  destruct (String.eqb (command self) "GET").
  { unfold do_GET. destruct (Py.startswith "/api/" (path self)).
    - right. apply Hproxy; reflexivity.
    - destruct (String.eqb (path self) "/config.js").
      + right. rewrite config_js_run, !app_assoc. exists st. do 3 eexists.
        repeat split.
      + right. rewrite super_do_GET_run.
        destruct (static_answer_shape w self true st) as (s & hs & out & ->).
        exists st. eauto 10. }
  destruct (String.eqb (command self) "HEAD").
  { right. rewrite do_HEAD_run.
    destruct (static_answer_shape w self false st) as (s & hs & out & ->).
    exists st. eauto 10. }
  destruct (String.eqb (command self) "POST").
  { unfold do_POST. destruct (Py.startswith "/api/" (path self));
      [apply Hbody | right; apply Herr]. }
  destruct (String.eqb (command self) "DELETE").
  { unfold do_DELETE. right. destruct (Py.startswith "/api/" (path self));
      [apply Hproxy; reflexivity | apply Herr]. }
  destruct (String.eqb (command self) "PUT").
  { unfold do_PUT. destruct (Py.startswith "/api/" (path self));
      [apply Hbody | right; apply Herr]. }
  destruct (String.eqb (command self) "PATCH").
  { unfold do_PATCH. destruct (Py.startswith "/api/" (path self));
      [apply Hbody | right; apply Herr]. }
  right. apply Herr.
Qed.

(** ** The router *)

Lemma serve_dispatch w cfg self :
  serve lib cfg w self = handle_one_request lib w self (connect cfg self).
Proof. reflexivity. Qed.



Lemma no_cache_headers_html self :
  Py.endswith ".html" (path self) = true \/ path self = "/" ->
  no_cache_headers self =
  [("Cache-Control", "no-cache, no-store, must-revalidate");
   ("Pragma", "no-cache"); ("Expires", "0")].
Proof.
  unfold no_cache_headers. intros [-> | ->]; reflexivity.
Qed.

(** C8: an answer to a request whose path ends in [.html] or is [/] carries
    [Cache-Control: no-cache, no-store, must-revalidate], [Pragma: no-cache]
    and [Expires: 0], whichever handler produced it; the answer to
    [GET /app.js] has no header of these three names. *)
Theorem no_cache_policy w cfg self :
  let r := serve lib cfg w self in
  (Py.endswith ".html" (path self) = true \/ path self = "/" ->
   is_Some (status_line (snd r)) ->
   ("Cache-Control", "no-cache, no-store, must-revalidate")
     ∈ headers_buffer (snd r) /\
   ("Pragma", "no-cache") ∈ headers_buffer (snd r) /\
   ("Expires", "0") ∈ headers_buffer (snd r)) /\
  (command self = "GET" -> path self = "/app.js" ->
   fst r = Ok tt /\
   Forall (fun kv => Py.lower kv.1 ∉ ["cache-control"; "pragma"; "expires"])
     (headers_buffer (snd r))).
Proof.
  cbv zeta. rewrite serve_dispatch. split.
  - intros Hpath Hsent.
    destruct (handle_one_request_outcome w self (connect cfg self))
      as [[e Hrun] | (st0 & s & hs & out & _ & _ & Hrun)];
      rewrite Hrun in *; cbn [snd] in *.
    + destruct Hsent as [x Hx]. discriminate Hx.
    + cbn [sent headers_buffer]. rewrite (no_cache_headers_html self Hpath).
      rewrite !elem_of_app, !elem_of_cons. auto 10.
  - intros Hcmd Hpath. unfold handle_one_request, do_GET.
    rewrite Hcmd, Hpath. cbn [String.eqb Ascii.eqb Bool.eqb].
    change (Py.startswith "/api/" "/app.js") with false. cbv iota.
    rewrite super_do_GET_run. split; [reflexivity|].
    unfold static_answer, error_answer, no_cache_headers. rewrite Hpath.
    cbn [fst snd].
    destruct (send_head_result w self) as [new_url | message | | ctype len lm content];
      [| | |destruct lm];
      cbn; repeat constructor; apply in_list_false; reflexivity.
Qed.

(** C9: no handler writes [databricks_config]; the value resolved at start
    is the one every request is served with, whatever the environment has
    become by then. *)
Theorem config_read_only :
  (forall w self st,
     databricks_config (snd (handle_one_request lib w self st)) =
     databricks_config st) /\
  (forall sdk env0 reqs,
     main lib sdk env0 reqs =
     map (fun '(w, self) => serve lib (get_databricks_config sdk env0) w self)
       reqs /\
     Forall (fun r => databricks_config (snd r) = get_databricks_config sdk env0)
       (main lib sdk env0 reqs)).
Proof.
  assert (Hkeep : forall w self st,
    databricks_config (snd (handle_one_request lib w self st)) =
    databricks_config st).
  { intros w self st.
    destruct (handle_one_request_outcome w self st)
      as [[e ->] | (st0 & s & hs & out & Hcfg & _ & ->)];
      [reflexivity | exact Hcfg]. }
  split; [exact Hkeep|].
  intros sdk env0 reqs. unfold main. cbv zeta.
  generalize (get_databricks_config sdk env0) as cfg. intros cfg.
  induction reqs as [|[w self] reqs [IHmap IHall]]; [split; [reflexivity | constructor]|].
  cbn [serve_forever map]. cbv zeta.
  assert (Hcfg : databricks_config (snd (serve lib cfg w self)) = cfg)
    by (unfold serve; apply Hkeep).
  rewrite Hcfg. split.
  - f_equal. exact IHmap.
  - constructor; [exact Hcfg | exact IHall].
Qed.


(** ** The text of [config.js] *)

Lemma prefix_app_sep (p : string) (c : ascii) (x y : string) :
  Py.contains (String c EmptyString) p = false ->
  String.prefix p (x +:+ String c y) = String.prefix p x.
Proof.
  revert x. induction p as [|a p IH]; intros x Hc.
  - destruct x; reflexivity.
  - change (Py.contains (String c EmptyString) (String a p))
      with (String.prefix (String c EmptyString) (String a p)
            || Py.contains (String c EmptyString) p) in Hc.
    apply orb_false_iff in Hc as [Hpre Hp].
    assert (Hne : a <> c).
    { intros ->. cbn in Hpre.
      destruct (ascii_dec c c); [destruct p; discriminate Hpre | congruence]. }
    destruct x as [|b x].
    + rewrite append_empty_l. cbn.
      destruct (ascii_dec a c) as [Heq | _]; [congruence | reflexivity].
    + rewrite append_cons. cbn.
      destruct (ascii_dec a b); [apply IH; exact Hp | reflexivity].
Qed.

(** An occurrence of [p] cannot straddle a character that [p] lacks. *)
Lemma contains_app_sep (p : string) (c : ascii) (x y : string) :
  Py.contains (String c EmptyString) p = false ->
  Py.contains p (x +:+ String c y) = Py.contains p x || Py.contains p y.
Proof.
  intros Hc. induction x as [|a x IH].
  - rewrite append_empty_l.
    change (Py.contains p (String c y))
      with (String.prefix p (String c y) || Py.contains p y).
    rewrite <- (append_empty_l (String c y)), prefix_app_sep by exact Hc.
    change (Py.contains p EmptyString) with (String.prefix p EmptyString || false).
    rewrite orb_false_r. reflexivity.
  - rewrite append_cons.
    change (Py.contains p (String a (x +:+ String c y)))
      with (String.prefix p (String a (x +:+ String c y))
            || Py.contains p (x +:+ String c y)).
    rewrite <- append_cons, prefix_app_sep, IH by exact Hc.
    change (Py.contains p (String a x))
      with (String.prefix p (String a x) || Py.contains p x).
    rewrite orb_assoc. reflexivity.
Qed.

Lemma or_else_empty (s : string) : Py.or_else (Some s) EmptyString = s.
Proof. destruct s; reflexivity. Qed.

Lemma config_js_segments h g wh b c :
  config_js h g wh b c =
  "
// Runtime configuration injected by server
window.APP_CONFIG = {
  databricksHost: " +:+ String "'" (h +:+ String "'" (",
  genieSpaceId: " +:+ String "'" (g +:+ String "'" (",
  sqlWarehouseId: " +:+ String "'" (wh +:+ String "'" ((",
  isOBO: " +:+ Py.bool_lower b +:+ ",
  clientId: ") +:+ String "'" (c +:+ String "'" "
};
console.log('✅ Runtime config loaded from server:', window.APP_CONFIG);
console.log('🔐 Authentication mode:', window.APP_CONFIG.isOBO ? 'OAuth/OBO' : 'Token');
"))))))).
Proof.
  unfold config_js. rewrite or_else_empty. destruct b; reflexivity.
Qed.

Lemma config_js_isOBO_text h g wh b c :
  Py.contains "isOBO: true" (config_js h g wh b c) =
  Py.contains "isOBO: true" h || Py.contains "isOBO: true" g
  || Py.contains "isOBO: true" wh || b || Py.contains "isOBO: true" c.
Proof.
  rewrite config_js_segments.
  rewrite !contains_app_sep by reflexivity.
  destruct b;
    repeat match goal with
    | |- context [Py.contains ?p ?s] =>
        lazymatch s with
        | h => fail | g => fail | wh => fail | c => fail
        | _ => let v := eval vm_compute in (Py.contains p s) in
               change (Py.contains p s) with v
        end
    end;
    destruct (Py.contains "isOBO: true" h), (Py.contains "isOBO: true" g),
      (Py.contains "isOBO: true" wh), (Py.contains "isOBO: true" c);
    reflexivity.
Qed.

Lemma contains_nonempty (p s : string) :
  p <> EmptyString -> Py.contains p s = true -> s <> EmptyString.
Proof.
  intros Hp Hc ->. destruct p; [congruence | discriminate Hc].
Qed.

(** C6 (amended): [GET /config.js] is answered 200 with
    [Content-type: application/javascript] and
    [Cache-Control: no-cache, no-store, must-revalidate] and no further
    header besides [Server] and [Date] (so neither [Pragma] nor [Expires]);
    the body is the configuration script, whose [isOBO] field is [true]
    exactly when [DATABRICKS_CLIENT_ID] is non-empty at the time of the
    call; the body contains the text [isOBO: true] exactly when that is so
    or when the host or one of the two resource ids contains that text. *)
Theorem config_js_response w cfg self :
  command self = "GET" ->
  path self = "/config.js" ->
  let r := serve lib cfg w self in
  let genie_space_id := getenv (environ w) "GENIE_SPACE_ID" EmptyString in
  let sql_warehouse_id := getenv (environ w) "SQL_WAREHOUSE_ID" EmptyString in
  let client_id := getenv (environ w) "DATABRICKS_CLIENT_ID" EmptyString in
  fst r = Ok tt /\
  status_line (snd r) = Some (200, None) /\
  headers_buffer (snd r) =
    [("Server", version_string lib); ("Date", date_time_string w);
     ("Content-type", "application/javascript");
     ("Cache-Control", "no-cache, no-store, must-revalidate")] /\
  wfile (snd r) =
    config_js (host cfg) genie_space_id sql_warehouse_id
      (Py.truthy client_id) client_id /\
  urlopen_calls (snd r) = [] /\
  (Py.contains "isOBO: true" (wfile (snd r)) = true <->
   client_id <> EmptyString \/
   Py.contains "isOBO: true" (host cfg) = true \/
   Py.contains "isOBO: true" genie_space_id = true \/
   Py.contains "isOBO: true" sql_warehouse_id = true).
Proof.
  intros Hcmd Hpath. cbv zeta. rewrite serve_dispatch.
  unfold handle_one_request, do_GET. rewrite Hcmd, Hpath.
  cbn [String.eqb Ascii.eqb Bool.eqb].
  change (Py.startswith "/api/" "/config.js") with false. cbv iota.
  rewrite config_js_run. unfold no_cache_headers. rewrite Hpath.
  cbn [fst snd sent connect status_line headers_buffer wfile urlopen_calls
       databricks_config].
  change (Py.endswith ".html" "/config.js") with false.
  cbn [String.eqb Ascii.eqb Bool.eqb orb app server_date].
  rewrite append_empty_l.
  repeat (split; [reflexivity|]).
  rewrite config_js_isOBO_text, !orb_true_iff, truthy_true.
  split.
  - intros [[[[H | H] | H] | H] | H]; auto.
    left. apply (contains_nonempty "isOBO: true"); [discriminate | exact H].
  - intros [H | [H | [H | H]]]; auto.
Qed.

(** A request to an [/api/] path with one of the five proxied methods reaches
    [proxy_api_request] with nothing sent yet, unless [int()] rejects its
    [Content-Length] first. *)
Lemma api_request_reaches_proxy w cfg self :
  command self ∈ ["GET"; "POST"; "PUT"; "PATCH"; "DELETE"] ->
  Py.startswith "/api/" (path self) = true ->
  (exists e, serve lib cfg w self = (Raise e, connect cfg self)) \/
  (exists body unread,
     serve lib cfg w self =
     proxy_api_request lib w self (command self) body
       (set_rfile unread (connect cfg self))).
Proof.
  intros Hcmd Hpath. rewrite serve_dispatch. unfold handle_one_request.
  assert (Hnow : forall method,
    exists body unread,
      proxy_api_request lib w self method None (connect cfg self) =
      proxy_api_request lib w self method body
        (set_rfile unread (connect cfg self))).
  { intros method. exists None, (body_stream self). reflexivity. }
  assert (Hbody : forall method,
    (exists e, (let* body := read_body lib self in
                proxy_api_request lib w self method body)%handler
                 (connect cfg self) = (Raise e, connect cfg self)) \/
    (exists body unread,
       (let* body := read_body lib self in
        proxy_api_request lib w self method body)%handler (connect cfg self) =
       proxy_api_request lib w self method body
         (set_rfile unread (connect cfg self)))).
  { intros method. rewrite bind_run.
    destruct (read_body_run self (connect cfg self))
      as [[e ->] | (body & unread & ->)]; eauto. }
  rewrite !elem_of_cons, elem_of_nil in Hcmd.
  destruct Hcmd as [Hc | [Hc | [Hc | [Hc | [Hc | []]]]]]; rewrite Hc; cbn;
    unfold do_GET, do_POST, do_PUT, do_PATCH, do_DELETE; rewrite Hpath;
    first [apply Hbody | right; apply Hnow].
Qed.


(** ** The configuration resolver *)

(** X1: the token is the [DATABRICKS_TOKEN] value (empty when unset) whatever
    the SDK does; a non-empty SDK host wins over the environment; otherwise
    the host is the [DATABRICKS_HOST] value, so that the host is empty
    exactly when the SDK yields no host and that variable is unset or
    empty. *)
Theorem config_host_resolution sdk (env : gmap string string) :
  let cfg := get_databricks_config sdk env in
  token cfg = default EmptyString (env !! "DATABRICKS_TOKEN") /\
  (forall h, sdk = SdkConfig (Some h) -> h <> EmptyString -> host cfg = h) /\
  ((forall h, sdk = SdkConfig (Some h) -> h = EmptyString) ->
   host cfg = default EmptyString (env !! "DATABRICKS_HOST")) /\
  (host cfg = EmptyString <->
   (forall h, sdk = SdkConfig (Some h) -> h = EmptyString) /\
   (env !! "DATABRICKS_HOST" = None \/
    env !! "DATABRICKS_HOST" = Some EmptyString)).
Proof.
  cbv zeta. unfold get_databricks_config, getenv.
  assert (Henv : forall o : option string,
            default EmptyString o = EmptyString <->
            o = None \/ o = Some EmptyString).
  { intros [s|]; cbn; split; auto.
    - intros ->. auto.
    - intros [H | H]; congruence. }
  assert (Hnone : forall sdk0,
            (forall h, sdk0 <> SdkConfig (Some h)) ->
            forall P : Prop, (P <-> (forall h, sdk0 = SdkConfig (Some h) ->
                                        h = EmptyString) /\ P)).
  { intros sdk0 Hsdk P. split; [|tauto].
    intros HP. split; [|exact HP]. intros h Heq. destruct (Hsdk h Heq). }
  destruct sdk as [ | msg | [[|c h0]|]]; cbn [host token Py.or_else Py.truthy].
  - split; [reflexivity|]. split; [intros h Heq; discriminate Heq|].
    split; [reflexivity|]. rewrite Henv. apply Hnone. discriminate.
  - split; [reflexivity|]. split; [intros h Heq; discriminate Heq|].
    split; [reflexivity|]. rewrite Henv. apply Hnone. discriminate.
  - split; [reflexivity|].
    split; [intros h Heq Hne; injection Heq as <-; congruence|].
    split; [reflexivity|]. rewrite Henv. split; [|tauto].
    intros HP. split; [|exact HP]. intros h Heq. injection Heq as <-.
    reflexivity.
  - split; [reflexivity|].
    split; [intros h Heq _; injection Heq as <-; reflexivity|].
    split; [intros Hall; discriminate (Hall _ eq_refl)|].
    split; [intros Hh; discriminate Hh|].
    intros [Hall _]. discriminate (Hall _ eq_refl).
  - split; [reflexivity|]. split; [intros h Heq; discriminate Heq|].
    split; [reflexivity|]. rewrite Henv. apply Hnone. discriminate.
Qed.

(** ** Failures of the outbound call *)

(** X3: when the outbound call fails with something other than an HTTP
    error and the text of the failure is ASCII, the proxy raises nothing and
    answers 500 with the message "Proxy error: " followed by that text, on
    a connection it closes. *)
Theorem transport_failure_is_500 w self method body st req msg :
  host (databricks_config st) <> EmptyString ->
  urlopen_calls (snd (proxy_api_request lib w self method body st)) =
    urlopen_calls st ++ [req] ->
  urlopen_result w req = inr (Exception msg) ->
  isascii msg = true ->
  let r := proxy_api_request lib w self method body st in
  fst r = Ok tt /\
  status_line (snd r) = Some (500, Some ("Proxy error: " +:+ msg)) /\
  ("Connection", "close") ∈ headers_buffer (snd r).
Proof.
  intros Hhost Hcalls Hres _ r. subst r. revert Hcalls.
  rewrite proxy_api_request_run. cbn [fst snd].
  rewrite proxy_answer_calls by assumption.
  intros Heq. apply app_inv_head in Heq. injection Heq as <-.
  rewrite proxy_answer_configured by assumption. cbv zeta.
  rewrite Hres. unfold error_answer.
  cbn [sent status_line headers_buffer set_urlopen_calls].
  split; [reflexivity|]. split; [reflexivity|].
  rewrite !elem_of_app, list_elem_of_singleton. auto.
Qed.

(** ** The outbound request *)

(** X5: the outbound request always carries [Content-Type: application/json]
    and [User-Agent: Databricks-App/1.0], and besides these and
    [Authorization] no header at all: nothing else of the inbound header
    block is forwarded. *)
Theorem outbound_headers_fixed w self method body st :
  host (databricks_config st) <> EmptyString ->
  exists req,
    urlopen_calls (snd (proxy_api_request lib w self method body st)) =
      urlopen_calls st ++ [req] /\
    out_headers req !! "Content-Type" = Some "application/json" /\
    out_headers req !! "User-Agent" = Some "Databricks-App/1.0" /\
    (forall k, k ∉ ["Content-Type"; "User-Agent"; "Authorization"] ->
       out_headers req !! k = None).
Proof.
  intros Hhost. rewrite proxy_api_request_run. cbn [snd].
  eexists. split; [apply proxy_answer_calls; assumption|].
  unfold outbound_request. cbn [out_headers].
  destruct (Py.truthy_opt _); [|destruct (headers_contains _ _)].
  - split; [reflexivity|]. split; [reflexivity|].
    intros k Hk. rewrite !not_elem_of_cons in Hk.
    destruct Hk as (H1 & H2 & H3 & _).
    rewrite !lookup_insert_ne by congruence.
    apply lookup_singleton_ne. congruence.
  - split; [reflexivity|]. split; [reflexivity|].
    intros k Hk. rewrite !not_elem_of_cons in Hk.
    destruct Hk as (H1 & H2 & H3 & _).
    rewrite !lookup_insert_ne by congruence.
    apply lookup_singleton_ne. congruence.
  - split; [reflexivity|]. split; [reflexivity|].
    intros k Hk. rewrite !not_elem_of_cons in Hk.
    destruct Hk as (H1 & H2 & H3 & _).
    rewrite !lookup_insert_ne by congruence.
    apply lookup_singleton_ne. congruence.
Qed.

Lemma headers_get_ignores_case name (hs hs' : Headers) :
  Forall2 (fun a b => Py.lower a.1 = Py.lower b.1 /\ a.2 = b.2) hs hs' ->
  headers_get name hs = headers_get name hs'.
Proof.
  induction 1 as [|[k v] [k' v'] hs hs' [Hk Hv] _ IH]; [reflexivity|].
  cbn in Hk, Hv. cbn [headers_get]. rewrite Hk, Hv, IH. reflexivity.
Qed.

(** X6: the credential headers are found whatever the letter case of their
    names: two requests whose header blocks agree up to the case of the
    names lead to the same outbound call. *)
Theorem credential_lookup_ignores_case w self self' method body st :
  path self = path self' ->
  Forall2 (fun a b => Py.lower a.1 = Py.lower b.1 /\ a.2 = b.2)
    (headers self) (headers self') ->
  urlopen_calls (snd (proxy_api_request lib w self method body st)) =
  urlopen_calls (snd (proxy_api_request lib w self' method body st)).
Proof.
  intros Hpath Hheaders. rewrite !proxy_api_request_run. cbn [snd].
  destruct (Py.truthy (host (databricks_config st))) eqn:Hhost.
  - apply truthy_true in Hhost. rewrite !proxy_answer_calls by exact Hhost.
    unfold outbound_request, headers_contains, headers_getitem.
    rewrite Hpath.
    rewrite !(headers_get_ignores_case _ _ _ Hheaders). reflexivity.
  - unfold proxy_answer. rewrite Hhost. reflexivity.
Qed.

(** ** Which requests reach the proxy, and with what body *)

Lemma read_body_exact self st :
  read_body lib self st =
  match headers_get "Content-Length" (headers self) with
  | None => (Ok None, st)
  | Some s =>
      match py_int lib s with
      | None =>
          (Raise (Exception ("invalid literal for int() with base 10: "
                             +:+ py_repr lib s)), st)
      | Some n =>
          if 0 <? n
          then (Ok (Some (Py.take (Z.to_nat n) (rfile st))),
                set_rfile (Py.drop (Z.to_nat n) (rfile st)) st)
          else (Ok None, st)
      end
  end.
Proof.
  unfold read_body. rewrite bind_run.
  destruct (headers_get "Content-Length" (headers self)) as [s|];
    [destruct (py_int lib s) as [n|]|]; try reflexivity.
  unfold ret at 1. cbv beta iota. destruct (0 <? n); reflexivity.
Qed.


Lemma serve_with_body w cfg self :
  command self ∈ ["POST"; "PUT"; "PATCH"] ->
  Py.startswith "/api/" (path self) = true ->
  serve lib cfg w self =
  match read_body lib self (connect cfg self) with
  | (Ok body, st1) =>
      (Ok tt, proxy_answer lib w self (command self) body st1)
  | (Raise e, st1) => (Raise e, st1)
  end.
Proof.
  intros Hcmd Hpath. rewrite serve_dispatch. unfold handle_one_request.
  rewrite !elem_of_cons, elem_of_nil in Hcmd.
  destruct Hcmd as [Hc | [Hc | [Hc | []]]]; rewrite Hc; cbn;
    unfold do_POST, do_PUT, do_PATCH; rewrite Hpath, bind_run;
    destruct (read_body lib self (connect cfg self)) as [[body | e] st1];
    try reflexivity; apply proxy_api_request_run.
Qed.

Lemma command_cases (cmd : string) (P : Prop) :
  (cmd = "GET" -> P) -> (cmd = "HEAD" -> P) -> (cmd = "POST" -> P) ->
  (cmd = "DELETE" -> P) -> (cmd = "PUT" -> P) -> (cmd = "PATCH" -> P) ->
  (cmd ∉ ["GET"; "HEAD"; "POST"; "PUT"; "PATCH"; "DELETE"] -> P) -> P.
Proof.
  intros HG HH HPo HD HPu HPa Hother.
  destruct (decide (cmd = "GET")); [auto|].
  destruct (decide (cmd = "HEAD")); [auto|].
  destruct (decide (cmd = "POST")); [auto|].
  destruct (decide (cmd = "DELETE")); [auto|].
  destruct (decide (cmd = "PUT")); [auto|].
  destruct (decide (cmd = "PATCH")); [auto|].
  apply Hother. rewrite !not_elem_of_cons. repeat split; auto.
  apply not_elem_of_nil.
Qed.

(** A request that is not one of the five proxied methods on an [/api/] path
    is answered by the gateway itself: the handler returns, the header block
    is closed by [end_headers], and the answer is one of the four local
    ones. *)
Lemma serve_local w cfg self :
  ~ (command self ∈ ["GET"; "POST"; "PUT"; "PATCH"; "DELETE"] /\
     Py.startswith "/api/" (path self) = true) ->
  exists st',
    serve lib cfg w self = (Ok tt, st') /\
    (st' = sent (connect cfg self) (200, None)
             (server_date lib w ++
              [("Content-type", "application/javascript");
               ("Cache-Control", "no-cache, no-store, must-revalidate")] ++
              no_cache_headers self)
             (config_js (host cfg)
                (getenv (environ w) "GENIE_SPACE_ID" EmptyString)
                (getenv (environ w) "SQL_WAREHOUSE_ID" EmptyString)
                (Py.truthy (getenv (environ w) "DATABRICKS_CLIENT_ID" EmptyString))
                (getenv (environ w) "DATABRICKS_CLIENT_ID" EmptyString)) /\
       command self = "GET" /\ path self = "/config.js" \/
     (exists copy, st' = static_answer lib w self copy (connect cfg self)) \/
     exists code message,
       st' = error_answer lib w self code message (connect cfg self)).
Proof.
  intros Hlocal. rewrite serve_dispatch. unfold handle_one_request.
  assert (Hnapi : command self ∈ ["GET"; "POST"; "PUT"; "PATCH"; "DELETE"] ->
                  Py.startswith "/api/" (path self) = false).
  { intros Hcmd. destruct (Py.startswith "/api/" (path self)); [|reflexivity].
    destruct Hlocal. auto. }
  apply (command_cases (command self)); intros Hc.
  - rewrite Hc. cbn. unfold do_GET. rewrite Hnapi by (rewrite Hc; set_solver).
    destruct (String.eqb (path self) "/config.js") eqn:Hcfg.
    + apply String.eqb_eq in Hcfg. rewrite config_js_run.
      eexists. split; [reflexivity|]. left. auto.
    + rewrite super_do_GET_run.
      eexists. split; [reflexivity|]. right. left. eauto.
  - rewrite Hc. cbn. rewrite do_HEAD_run.
    eexists. split; [reflexivity|]. right. left. eauto.
  - rewrite Hc. cbn. unfold do_POST. rewrite Hnapi by (rewrite Hc; set_solver).
    rewrite send_error_run. eexists. split; [reflexivity|]. right. right. eauto.
  - rewrite Hc. cbn. unfold do_DELETE.
    rewrite Hnapi by (rewrite Hc; set_solver).
    rewrite send_error_run. eexists. split; [reflexivity|]. right. right. eauto.
  - rewrite Hc. cbn. unfold do_PUT. rewrite Hnapi by (rewrite Hc; set_solver).
    rewrite send_error_run. eexists. split; [reflexivity|]. right. right. eauto.
  - rewrite Hc. cbn. unfold do_PATCH.
    rewrite Hnapi by (rewrite Hc; set_solver).
    rewrite send_error_run. eexists. split; [reflexivity|]. right. right. eauto.
  - rewrite !not_elem_of_cons in Hc.
    destruct Hc as (H1 & H2 & H3 & H4 & H5 & H6 & _).
    apply String.eqb_neq in H1, H2, H3, H4, H5, H6.
    rewrite H1, H2, H3, H4, H5, H6, send_error_run.
    eexists. split; [reflexivity|]. right. right. eauto.
Qed.

Lemma error_answer_local w self code message st :
  urlopen_calls (error_answer lib w self code message st) = urlopen_calls st /\
  rfile (error_answer lib w self code message st) = rfile st.
Proof. split; reflexivity. Qed.

Lemma static_answer_local w self copy st :
  urlopen_calls (static_answer lib w self copy st) = urlopen_calls st /\
  rfile (static_answer lib w self copy st) = rfile st.
Proof.
  unfold static_answer.
  destruct (send_head_result w self); split; reflexivity.
Qed.

Lemma serve_local_quiet w cfg self :
  ~ (command self ∈ ["GET"; "POST"; "PUT"; "PATCH"; "DELETE"] /\
     Py.startswith "/api/" (path self) = true) ->
  fst (serve lib cfg w self) = Ok tt /\
  urlopen_calls (snd (serve lib cfg w self)) = [] /\
  rfile (snd (serve lib cfg w self)) = body_stream self.
Proof.
  intros Hlocal.
  destruct (serve_local w cfg self Hlocal)
    as (st' & -> & [(-> & _) | [(copy & ->) | (code & message & ->)]]);
    cbn [fst snd]; (split; [reflexivity|]).
  - split; reflexivity.
  - apply static_answer_local.
  - apply error_answer_local.
Qed.

Lemma proxy_answer_unconfigured w self method body st :
  host (databricks_config st) = EmptyString ->
  proxy_answer lib w self method body st =
  error_answer lib w self 500 "Databricks host not configured" st.
Proof. intros Hhost. unfold proxy_answer. rewrite Hhost. reflexivity. Qed.


(** X8: a POST, PUT or PATCH on an [/api/] path whose [Content-Length] value
    [int()] rejects makes the handler raise: the conversion is made before
    the [try] block is entered.  Nothing has been sent by then, nothing was
    read from the body and nothing was forwarded, with or without a
    configured host. *)
Theorem rejected_content_length_raises w cfg self s :
  command self ∈ ["POST"; "PUT"; "PATCH"] ->
  Py.startswith "/api/" (path self) = true ->
  headers_get "Content-Length" (headers self) = Some s ->
  py_int lib s = None ->
  let r := serve lib cfg w self in
  fst r = Raise (Exception ("invalid literal for int() with base 10: "
                            +:+ py_repr lib s)) /\
  snd r = connect cfg self /\
  status_line (snd r) = None /\
  rfile (snd r) = body_stream self /\
  urlopen_calls (snd r) = [].
Proof.
  intros Hcmd Hpath Hlen Hint. cbv zeta.
  rewrite (serve_with_body w cfg self Hcmd Hpath), read_body_exact.
  rewrite Hlen, Hint. cbn [fst snd]. repeat split.
Qed.


(** ** The token of the configuration *)

Lemma proxy_answer_retoken w self method body t st :
  proxy_answer lib w self method body (retoken t st) =
  retoken t (proxy_answer lib w self method body st).
Proof.
  unfold proxy_answer. cbn [retoken databricks_config host].
  destruct (negb (Py.truthy (host (databricks_config st)))); [reflexivity|].
  cbv zeta.
  change (outbound_request (databricks_config (retoken t st)) self method body)
    with (outbound_request (databricks_config st) self method body).
  destruct (urlopen_result w _) as [response | [code reason fp | msg]];
    reflexivity.
Qed.

Lemma static_answer_retoken w self copy t st :
  static_answer lib w self copy (retoken t st) =
  retoken t (static_answer lib w self copy st).
Proof.
  unfold static_answer.
  destruct (send_head_result w self) as [new_url | message | | ctype len lm content];
    reflexivity.
Qed.

Lemma handle_one_request_retoken w self t st :
  handle_one_request lib w self (retoken t st) =
  (fst (handle_one_request lib w self st),
   retoken t (snd (handle_one_request lib w self st))).
Proof.
  assert (Hbody : forall method,
    (let* body := read_body lib self in
     proxy_api_request lib w self method body)%handler (retoken t st) =
    (fst ((let* body := read_body lib self in
           proxy_api_request lib w self method body)%handler st),
     retoken t (snd ((let* body := read_body lib self in
                      proxy_api_request lib w self method body)%handler st)))).
  { intros method. rewrite !bind_run, !read_body_exact.
    destruct (headers_get "Content-Length" (headers self)) as [s|];
      [destruct (py_int lib s) as [n|]; [destruct (0 <? n)|]|];
      rewrite ?proxy_api_request_run; cbn [fst snd]; try reflexivity;
      f_equal;
      first [ apply proxy_answer_retoken
            | exact (proxy_answer_retoken w self method
                       (Some (Py.take (Z.to_nat n) (rfile st))) t
                       (set_rfile (Py.drop (Z.to_nat n) (rfile st)) st)) ]. }
  unfold handle_one_request, do_GET, do_POST, do_DELETE, do_PUT, do_PATCH.
  destruct (String.eqb (command self) "GET");
    [destruct (Py.startswith "/api/" (path self));
     [|destruct (String.eqb (path self) "/config.js")]|].
  { rewrite !proxy_api_request_run. cbn [fst snd]. f_equal.
    apply proxy_answer_retoken. }
  { rewrite !config_js_run. reflexivity. }
  { rewrite !super_do_GET_run. cbn [fst snd]. f_equal.
    apply static_answer_retoken. }
  destruct (String.eqb (command self) "HEAD").
  { rewrite !do_HEAD_run. cbn [fst snd]. f_equal. apply static_answer_retoken. }
  destruct (String.eqb (command self) "POST").
  { destruct (Py.startswith "/api/" (path self)); [apply Hbody|].
    rewrite !send_error_run. reflexivity. }
  destruct (String.eqb (command self) "DELETE").
  { destruct (Py.startswith "/api/" (path self)).
    - rewrite !proxy_api_request_run. cbn [fst snd]. f_equal.
      apply proxy_answer_retoken.
    - rewrite !send_error_run. reflexivity. }
  destruct (String.eqb (command self) "PUT").
  { destruct (Py.startswith "/api/" (path self)); [apply Hbody|].
    rewrite !send_error_run. reflexivity. }
  destruct (String.eqb (command self) "PATCH").
  { destruct (Py.startswith "/api/" (path self)); [apply Hbody|].
    rewrite !send_error_run. reflexivity. }
  rewrite !send_error_run. reflexivity.
Qed.

(** X10: the [token] field of the configuration ([DATABRICKS_TOKEN]) has no
    effect on any request: with another token the handler returns or raises
    alike, sends the same status line, headers and output, reads the same
    part of the body and makes the same outbound calls. *)
Theorem token_never_used w cfg self t :
  let r := serve lib cfg w self in
  let r' := serve lib {| host := host cfg; token := t |} w self in
  fst r' = fst r /\
  status_line (snd r') = status_line (snd r) /\
  headers_buffer (snd r') = headers_buffer (snd r) /\
  wfile (snd r') = wfile (snd r) /\
  rfile (snd r') = rfile (snd r) /\
  urlopen_calls (snd r') = urlopen_calls (snd r).
Proof.
  cbv zeta. rewrite !serve_dispatch.
  change (connect {| host := host cfg; token := t |} self)
    with (retoken t (connect cfg self)).
  rewrite handle_one_request_retoken. cbn [fst snd]. repeat split.
Qed.

(** ** Cache headers outside the HTML shell *)



(** ** From start to answer *)

Lemma serve_forever_map cfg reqs :
  serve_forever lib cfg reqs =
  map (fun '(w, self) => serve lib cfg w self) reqs.
Proof.
  induction reqs as [|[w self] reqs IH]; [reflexivity|].
  cbn [serve_forever map]. cbv zeta. f_equal.
  replace (databricks_config (snd (serve lib cfg w self))) with cfg;
    [exact IH|].
  unfold serve.
  destruct (handle_one_request_outcome w self (connect cfg self))
    as [[e ->] | (st0 & s & hs & out & Hcfg & _ & ->)];
    [reflexivity | symmetry; exact Hcfg].
Qed.

Lemma serve_unconfigured w cfg self :
  host cfg = EmptyString ->
  urlopen_calls (snd (serve lib cfg w self)) = [] /\
  (command self ∈ ["GET"; "POST"; "PUT"; "PATCH"; "DELETE"] ->
   Py.startswith "/api/" (path self) = true ->
   fst (serve lib cfg w self) = Ok tt ->
   status_line (snd (serve lib cfg w self)) =
     Some (500, Some "Databricks host not configured")).
Proof.
  intros Hhost.
  destruct (decide (command self ∈ ["GET"; "POST"; "PUT"; "PATCH"; "DELETE"]
                    /\ Py.startswith "/api/" (path self) = true))
    as [[Hcmd Hapi] | Hlocal].
  - destruct (api_request_reaches_proxy w cfg self Hcmd Hapi)
      as [[e ->] | (body & unread & ->)]; cbn [fst snd].
    + split; [reflexivity|]. intros _ _ Hok. discriminate Hok.
    + rewrite proxy_api_request_run. cbn [fst snd].
      rewrite proxy_answer_unconfigured by exact Hhost.
      split; [reflexivity|]. intros _ _ _. reflexivity.
  - destruct (serve_local_quiet w cfg self Hlocal) as (_ & Hcalls & _).
    split; [exact Hcalls|]. intros Hcmd Hapi. destruct Hlocal. auto.
Qed.

(** X2: when the SDK yields no host and [DATABRICKS_HOST] is unset or empty
    at start, the process never contacts a backend, whatever requests arrive
    and whatever the environment becomes later; every proxied method on an
    [/api/] path that is answered is answered 500 "Databricks host not
    configured". *)
Theorem unconfigured_gateway_never_forwards sdk
  (env0 : gmap string string) reqs :
  (forall h, sdk = SdkConfig (Some h) -> h = EmptyString) ->
  env0 !! "DATABRICKS_HOST" = None \/
  env0 !! "DATABRICKS_HOST" = Some EmptyString ->
  Forall2
    (fun '(w, self) r =>
       urlopen_calls (snd r) = [] /\
       (command self ∈ ["GET"; "POST"; "PUT"; "PATCH"; "DELETE"] ->
        Py.startswith "/api/" (path self) = true ->
        fst r = Ok tt ->
        status_line (snd r) =
          Some (500, Some "Databricks host not configured")))
    reqs (main lib sdk env0 reqs).
Proof.
  intros Hsdk Henv. unfold main. cbv zeta.
  assert (Hhost : host (get_databricks_config sdk env0) = EmptyString).
  { unfold get_databricks_config, getenv.
    destruct sdk as [ | msg | [h|]];
      try (rewrite (Hsdk h eq_refl)); cbn [host Py.or_else Py.truthy];
      destruct Henv as [-> | ->]; reflexivity. }
  rewrite serve_forever_map.
  generalize (get_databricks_config sdk env0), Hhost. intros cfg Hcfg.
  induction reqs as [|[w self] reqs IH]; cbn [map]; constructor;
    [apply (serve_unconfigured w cfg self Hcfg) | exact IH].
Qed.

(** X12: the script served at [/config.js] takes the host from the
    configuration resolved at start and the two resource ids and the client
    id from the environment at the time of the request, wherever in the
    sequence of requests it is served. *)
Theorem config_js_sources sdk (env0 : gmap string string) reqs i w self r :
  reqs !! i = Some (w, self) ->
  main lib sdk env0 reqs !! i = Some r ->
  command self = "GET" ->
  path self = "/config.js" ->
  wfile (snd r) =
    config_js (host (get_databricks_config sdk env0))
      (default EmptyString (environ w !! "GENIE_SPACE_ID"))
      (default EmptyString (environ w !! "SQL_WAREHOUSE_ID"))
      (Py.truthy (default EmptyString (environ w !! "DATABRICKS_CLIENT_ID")))
      (default EmptyString (environ w !! "DATABRICKS_CLIENT_ID")).
Proof.
  intros Hreq Hres Hcmd Hpath. unfold main in Hres. cbv zeta in Hres.
  rewrite serve_forever_map, list_lookup_fmap, Hreq in Hres.
  cbn in Hres. injection Hres as <-.
  rewrite serve_dispatch. unfold handle_one_request, do_GET.
  rewrite Hcmd, Hpath. cbn [String.eqb Ascii.eqb Bool.eqb].
  change (Py.startswith "/api/" "/config.js") with false. cbv iota.
  rewrite config_js_run. cbn [snd sent wfile connect databricks_config].
  apply append_empty_l.
Qed.

(** ** Requests to the API without a configured host *)

End Properties.

(** * The statements at concrete requests *)

(** C4 at a request with a query string. *)
Lemma outbound_url_witness :
  exists req,
    urlopen_calls
      (snd (proxy_api_request sample_lib (sample_world ∅ backend_ok)
              list_clusters "GET" None (connect sample_config list_clusters)))
      = [req] /\
    full_url req =
      "https://adb-1234.5.azuredatabricks.net/api/2.0/clusters/list?limit=25&name=a%20b"
    /\ out_method req = "GET".
Proof.
  apply (outbound_url sample_lib (sample_world ∅ backend_ok) list_clusters
           "GET" None (connect sample_config list_clusters)).
  discriminate.
Defined.

(** C1 (amended) at a request carrying a forwarded token and its own
    [Authorization] header: the forwarded token wins. *)
Lemma authorization_priority_witness :
  exists req,
    urlopen_calls
      (snd (proxy_api_request sample_lib (sample_world ∅ backend_ok)
              with_forwarded_token "GET" None
              (connect sample_config with_forwarded_token)))
      = [req] /\
    out_headers req !! "Authorization" = Some "Bearer tok123".
Proof.
  destruct (authorization_priority sample_lib (sample_world ∅ backend_ok)
              with_forwarded_token "GET" None
              (connect sample_config with_forwarded_token))
    as (req & Hcalls & Hforwarded & _ & _).
  - discriminate.
  - exists req. split; [exact Hcalls|].
    apply (Hforwarded "tok123"); [reflexivity | discriminate].
Defined.

(** C1 as stated fails: an empty [X-Forwarded-Access-Token] does not give
    "Bearer " followed by the empty value; the inbound [Authorization] header
    is forwarded instead. *)
Lemma authorization_empty_forwarded_token :
  headers_get "X-Forwarded-Access-Token" (headers with_empty_forwarded_token)
    = Some EmptyString /\
  exists req,
    urlopen_calls
      (snd (proxy_api_request sample_lib (sample_world ∅ backend_ok)
              with_empty_forwarded_token "GET" None
              (connect sample_config with_empty_forwarded_token)))
      = [req] /\
    out_headers req !! "Authorization" = Some "Basic dXNlcjpwdw==" /\
    out_headers req !! "Authorization" <> Some ("Bearer " +:+ EmptyString).
Proof.
  split; [reflexivity|].
  eexists. split; [vm_compute; reflexivity|].
  split; [reflexivity | discriminate].
Qed.

(** C3 at a backend answering 404 with a JSON error body. *)
Lemma backend_error_relayed_witness :
  let r := proxy_api_request sample_lib (sample_world ∅ backend_not_found)
             list_clusters "GET" None (connect sample_config list_clusters) in
  fst r = Ok tt /\
  status_line (snd r) = Some (404, None) /\
  headers_buffer (snd r) =
    [("Server", "SimpleHTTP/0.6 Python/3.11.2");
     ("Date", "Tue, 03 Nov 2026 11:00:00 GMT");
     ("Content-Type", "application/json")] /\
  wfile (snd r) = not_found_json.
Proof.
  cbv zeta.
  apply (backend_error_relayed sample_lib (sample_world ∅ backend_not_found)
           list_clusters "GET" None (connect sample_config list_clusters)
           (outbound_request sample_config list_clusters "GET" None)
           404 "Not Found" not_found_json).
  - discriminate.
  - vm_compute. reflexivity.
  - reflexivity.
Defined.

(** C5 at a backend answering 200 with two hop-by-hop headers among four. *)
Lemma success_relayed_witness :
  let r := proxy_api_request sample_lib (sample_world ∅ backend_ok)
             list_clusters "GET" None (connect sample_config list_clusters) in
  status_line (snd r) = Some (200, None) /\
  wfile (snd r) = "{}" /\
  headers_buffer (snd r) =
    [("Server", "SimpleHTTP/0.6 Python/3.11.2");
     ("Date", "Tue, 03 Nov 2026 11:00:00 GMT");
     ("Content-Type", "application/json");
     ("X-Request-Id", "7f3a")].
Proof.
  cbv zeta.
  destruct (success_relayed sample_lib (sample_world ∅ backend_ok)
              list_clusters "GET" None (connect sample_config list_clusters)
              (outbound_request sample_config list_clusters "GET" None)
              {| resp_status := 200;
                 resp_headers := [("Content-Type", "application/json");
                                  ("Transfer-Encoding", "chunked");
                                  ("connection", "keep-alive");
                                  ("X-Request-Id", "7f3a")];
                 resp_body := "{}" |})
    as (_ & Hstatus & Hbody & added & Hheaders & Hadded & _).
  - discriminate.
  - vm_compute. reflexivity.
  - reflexivity.
  - split; [exact Hstatus|]. split; [exact Hbody|].
    rewrite Hheaders, Hadded. reflexivity.
Defined.

(** C6 (amended) at an environment with a client id. *)
Lemma config_js_response_witness :
  let w := sample_world {[ "DATABRICKS_CLIENT_ID" := "a1b2" ]} backend_ok in
  let r := serve sample_lib sample_config w get_config_js in
  status_line (snd r) = Some (200, None) /\
  headers_buffer (snd r) =
    [("Server", "SimpleHTTP/0.6 Python/3.11.2");
     ("Date", "Tue, 03 Nov 2026 11:00:00 GMT");
     ("Content-type", "application/javascript");
     ("Cache-Control", "no-cache, no-store, must-revalidate")] /\
  Py.contains "isOBO: true" (wfile (snd r)) = true.
Proof.
  cbv zeta.
  destruct (config_js_response sample_lib
              (sample_world {[ "DATABRICKS_CLIENT_ID" := "a1b2" ]} backend_ok)
              sample_config get_config_js)
    as (_ & Hstatus & Hheaders & _ & _ & Htext).
  - reflexivity.
  - reflexivity.
  - split; [exact Hstatus|]. split; [exact Hheaders|].
    apply Htext. left. discriminate.
Defined.

(** C6 as stated fails: the answer to [GET /config.js] has neither a
    [Pragma] nor an [Expires] header; and with no client id set, the body
    still contains the text [isOBO: true] when a resource id does. *)
Lemma config_js_without_pragma_expires :
  let w := sample_world {[ "GENIE_SPACE_ID" := "isOBO: true" ]} backend_ok in
  let r := serve sample_lib sample_config w get_config_js in
  fst r = Ok tt /\
  headers_get "Pragma" (headers_buffer (snd r)) = None /\
  headers_get "Expires" (headers_buffer (snd r)) = None /\
  getenv (environ w) "DATABRICKS_CLIENT_ID" EmptyString = EmptyString /\
  Py.contains "isOBO: true" (wfile (snd r)) = true.
Proof. vm_compute. repeat split. Qed.



(** C8 at [GET /index.html] and [GET /app.js]. *)
Lemma no_cache_policy_witness :
  let w := sample_world ∅ backend_ok in
  (("Cache-Control", "no-cache, no-store, must-revalidate")
     ∈ headers_buffer (snd (serve sample_lib sample_config w get_index_html)) /\
   ("Pragma", "no-cache")
     ∈ headers_buffer (snd (serve sample_lib sample_config w get_index_html)) /\
   ("Expires", "0")
     ∈ headers_buffer (snd (serve sample_lib sample_config w get_index_html))) /\
  Forall (fun kv => Py.lower kv.1 ∉ ["cache-control"; "pragma"; "expires"])
    (headers_buffer (snd (serve sample_lib sample_config w get_app_js))).
Proof.
  cbv zeta. split.
  - apply (no_cache_policy sample_lib (sample_world ∅ backend_ok) sample_config
             get_index_html).
    + left. reflexivity.
    + eexists. reflexivity.
  - apply (no_cache_policy sample_lib (sample_world ∅ backend_ok) sample_config
             get_app_js); reflexivity.
Defined.


(** * Further statements at concrete requests *)

(** X1 at an SDK that yields a host while [DATABRICKS_HOST] names another. *)
Lemma config_host_resolution_witness :
  host (get_databricks_config (SdkConfig (Some "sdk.example.net"))
          {[ "DATABRICKS_HOST" := "env.example.net" ]}) = "sdk.example.net" /\
  host (get_databricks_config (SdkRaises "no profile")
          {[ "DATABRICKS_HOST" := "env.example.net" ]}) = "env.example.net".
Proof.
  split.
  - apply (config_host_resolution (SdkConfig (Some "sdk.example.net"))
             {[ "DATABRICKS_HOST" := "env.example.net" ]} ).
    + reflexivity.
    + discriminate.
  - destruct (config_host_resolution (SdkRaises "no profile")
                {[ "DATABRICKS_HOST" := "env.example.net" ]})
      as (_ & _ & Henv & _).
    apply Henv. intros h Heq. discriminate Heq.
Defined.

(** X2 at a start without host, followed by two requests in an environment
    that has one. *)
Lemma unconfigured_gateway_never_forwards_witness :
  Forall2
    (fun '(w, self) r =>
       urlopen_calls (snd r) = [] /\
       (command self ∈ ["GET"; "POST"; "PUT"; "PATCH"; "DELETE"] ->
        Py.startswith "/api/" (path self) = true ->
        fst r = Ok tt ->
        status_line (snd r) =
          Some (500, Some "Databricks host not configured")))
    [(late_world, list_clusters); (late_world, get_logo)]
    (main sample_lib (SdkConfig None) ∅
       [(late_world, list_clusters); (late_world, get_logo)]).
Proof.
  apply (unconfigured_gateway_never_forwards sample_lib (SdkConfig None) ∅).
  - intros h Heq. discriminate Heq.
  - left. reflexivity.
Defined.

(** X3 at a backend that refuses the connection. *)
Lemma transport_failure_is_500_witness :
  let r := proxy_api_request sample_lib (sample_world ∅ backend_down)
             list_clusters "GET" None (connect sample_config list_clusters) in
  fst r = Ok tt /\
  status_line (snd r) =
    Some (500,
          Some "Proxy error: <urlopen error [Errno 111] Connection refused>") /\
  ("Connection", "close") ∈ headers_buffer (snd r).
Proof.
  cbv zeta.
  apply (transport_failure_is_500 sample_lib (sample_world ∅ backend_down)
           list_clusters "GET" None (connect sample_config list_clusters)
           (outbound_request sample_config list_clusters "GET" None)
           "<urlopen error [Errno 111] Connection refused>").
  - discriminate.
  - vm_compute. reflexivity.
  - reflexivity.
  - reflexivity.
Defined.

(** X5 at a request that carries a cookie. *)
Lemma outbound_headers_fixed_witness :
  exists req,
    urlopen_calls
      (snd (proxy_api_request sample_lib (sample_world ∅ backend_ok)
              post_statement "POST" None
              (connect sample_config post_statement))) = [req] /\
    out_headers req !! "Content-Type" = Some "application/json" /\
    out_headers req !! "Cookie" = None.
Proof.
  destruct (outbound_headers_fixed sample_lib (sample_world ∅ backend_ok)
              post_statement "POST" None
              (connect sample_config post_statement))
    as (req & Hcalls & Hctype & _ & Hother).
  - discriminate.
  - exists req. split; [exact Hcalls|]. split; [exact Hctype|].
    apply Hother. rewrite !not_elem_of_cons. repeat split; try discriminate.
    apply not_elem_of_nil.
Defined.

(** X6 at a request whose header names are in another letter case. *)
Lemma credential_lookup_ignores_case_witness :
  urlopen_calls
    (snd (proxy_api_request sample_lib (sample_world ∅ backend_ok)
            with_forwarded_token "GET" None
            (connect sample_config with_forwarded_token))) =
  urlopen_calls
    (snd (proxy_api_request sample_lib (sample_world ∅ backend_ok)
            with_forwarded_token_lower "GET" None
            (connect sample_config with_forwarded_token))).
Proof.
  apply (credential_lookup_ignores_case sample_lib (sample_world ∅ backend_ok)
           with_forwarded_token with_forwarded_token_lower).
  - reflexivity.
  - repeat constructor.
Defined.


(** X8 at a PUT whose [Content-Length] is not a number. *)
Lemma rejected_content_length_raises_witness :
  let r := serve sample_lib sample_config (sample_world ∅ backend_ok)
             put_bad_length in
  fst r = Raise (Exception "invalid literal for int() with base 10: 'ten'") /\
  snd r = connect sample_config put_bad_length /\
  status_line (snd r) = None /\
  rfile (snd r) = "{'a': 1}" /\
  urlopen_calls (snd r) = [].
Proof.
  cbv zeta.
  apply (rejected_content_length_raises sample_lib (sample_world ∅ backend_ok)
           sample_config put_bad_length "ten").
  - repeat constructor.
  - reflexivity.
  - reflexivity.
  - reflexivity.
Defined.



(** X12 at a start with one host and a later environment with another. *)
Lemma config_js_sources_witness :
  exists r,
    main sample_lib SdkNotAvailable
      {[ "DATABRICKS_HOST" := "start.example.net" ]}
      [(late_world, list_clusters); (late_world, get_config_js)] !! 1%nat
      = Some r /\
    wfile (snd r) =
      config_js "start.example.net" "01ef" EmptyString false EmptyString.
Proof.
  eexists. split; [reflexivity|].
  etransitivity.
  - apply (config_js_sources sample_lib SdkNotAvailable
             {[ "DATABRICKS_HOST" := "start.example.net" ]}
             [(late_world, list_clusters); (late_world, get_config_js)]
             1%nat late_world get_config_js); reflexivity.
  - vm_compute. reflexivity.
Defined.


